(** * Checkpoint conversion: the quantization executor and the orchestrator

    A shallow embedding of [mediapipe/model_maker/python/llm/llm_converter.py]:
    [ConversionConfig.__init__], [quantize_by_actions],
    [combined_weight_bins_to_tflite] and [convert_checkpoint].

    Python exceptions are a [result]; the dictionary built by the executor is a
    finite map from output names to (value, pack flag) pairs (the insertion
    order of a Python dictionary is not kept); the calls that leave the module
    (logging, [os], the loader and writer factories, the native generators and
    the numeric primitives of [quantization_util]) are fields of two
    interfaces, so that every theorem holds for all their behaviours. *)

From Stdlib Require Import ZArith QArith Qminmax Qabs Ascii.
From stdpp Require Import gmap strings list fin_maps.

Local Open Scope Z_scope.

(** ** Exceptions and fallible results *)

Record exn := Exn { exn_type : string; exn_msg : string }.

Definition ValueError (msg : string) : exn := Exn "ValueError" msg.

Inductive result (A : Type) : Type :=
| Ok (a : A)
| Raise (e : exn).
Arguments Ok {A} a.
Arguments Raise {A} e.

#[global] Instance result_ret : MRet result := @Ok.
#[global] Instance result_bind : MBind result :=
  λ A B f r, match r with Ok a => f a | Raise e => Raise e end.

(** ** Data model *)

(** Modelled from the spec: [converter_base.QuantizationAction], whose
    declaration is not part of the converter module.  [quantize_axis] is the
    optional axis index of the data model ([None] is Python's [None]). *)
Record QuantizationAction (Tensor : Type) : Type := {
  target_name : string;
  tensor_value : Tensor;
  quantize_axis : option Z;
  quantize_bits : Z;
}.
Arguments target_name {Tensor} _.
Arguments tensor_value {Tensor} _.
Arguments quantize_axis {Tensor} _.
Arguments quantize_bits {Tensor} _.

(** Python's truth value of an optional integer: [None] and [0] are false. *)
Definition truthy (axis : option Z) : bool :=
  match axis with
  | None => false
  | Some z => negb (z =? 0)
  end.

(** What [quantization_util.quantize_tensor] hands back: a tuple of two
    tensors or of three. *)
Inductive pytuple (Tensor : Type) : Type :=
| Tuple2 (a b : Tensor)
| Tuple3 (a b c : Tensor).
Arguments Tuple2 {Tensor} a b.
Arguments Tuple3 {Tensor} a b c.

(** [x, y = t] and [x, y, z = t]: unpacking raises on a tuple of the wrong
    length. *)
Definition unpack2 {Tensor} (t : pytuple Tensor) : result (Tensor * Tensor) :=
  match t with
  | Tuple2 a b => Ok (a, b)
  | Tuple3 _ _ _ => Raise (ValueError "too many values to unpack (expected 2)")
  end.

Definition unpack3 {Tensor} (t : pytuple Tensor)
  : result (Tensor * Tensor * Tensor) :=
  match t with
  | Tuple3 a b c => Ok (a, b, c)
  | Tuple2 _ _ =>
      Raise (ValueError "not enough values to unpack (expected 3, got 2)")
  end.

(** The numeric primitives the executor calls; their code lives in
    [quantization_util].  Either may raise. *)
Class QuantizationUtil (Tensor : Type) : Type := {
  quantize_tensor :
    Tensor → option Z → bool → Z → result (pytuple Tensor);
  update_to_uint4 :
    Tensor → Tensor → Tensor → result (pytuple Tensor);
}.

(** ** The executor: [quantize_by_actions] *)

(** The body of the [for action in actions] loop, on the dictionary built so
    far. *)
Definition quantize_action {Tensor} `{!QuantizationUtil Tensor}
    (backend : string) (is_symmetric : bool)
    (output_tensors : gmap string (Tensor * bool))
    (action : QuantizationAction Tensor)
  : result (gmap string (Tensor * bool)) :=
  if truthy (quantize_axis action) then
    let pack := quantize_bits action =? 4 in
    if is_symmetric then
      r ← quantize_tensor (tensor_value action) (quantize_axis action)
            is_symmetric (quantize_bits action);
      '(target_var, scale) ← unpack2 r;
      Ok (<[target_name action +:+ "_quantized_scale" := (scale, false)]>
          (<[target_name action := (target_var, pack)]> output_tensors))
    else
      r ← quantize_tensor (tensor_value action) (quantize_axis action)
            is_symmetric (quantize_bits action);
      '(target_var, scale, zp) ← unpack3 r;
      '(target_var, scale, zp) ←
        (if String.eqb backend "xnnpack" && (quantize_bits action =? 4)
         then r' ← update_to_uint4 target_var scale zp; unpack3 r'
         else Ok (target_var, scale, zp));
      Ok (<[target_name action +:+ "_quantized_zp" := (zp, false)]>
          (<[target_name action +:+ "_quantized_scale" := (scale, false)]>
           (<[target_name action := (target_var, pack)]> output_tensors)))
  else
    Ok (<[target_name action := (tensor_value action, false)]> output_tensors).

Fixpoint quantize_loop {Tensor} `{!QuantizationUtil Tensor}
    (backend : string) (is_symmetric : bool)
    (actions : list (QuantizationAction Tensor))
    (output_tensors : gmap string (Tensor * bool))
  : result (gmap string (Tensor * bool)) :=
  match actions with
  | [] => Ok output_tensors
  | action :: rest =>
      out ← quantize_action backend is_symmetric output_tensors action;
      quantize_loop backend is_symmetric rest out
  end.

Definition quantize_by_actions {Tensor} `{!QuantizationUtil Tensor}
    (actions : list (QuantizationAction Tensor))
    (backend : string) (is_symmetric : bool)
  : result (gmap string (Tensor * bool)) :=
  quantize_loop backend is_symmetric actions ∅.


(** The keys under which the loop body assigns for one action, in the order
    of the assignments. *)
Definition output_names {Tensor} (is_symmetric : bool)
    (action : QuantizationAction Tensor) : list string :=
  if truthy (quantize_axis action) then
    if is_symmetric then
      [target_name action; target_name action +:+ "_quantized_scale"]
    else
      [target_name action; target_name action +:+ "_quantized_scale";
       target_name action +:+ "_quantized_zp"]
  else [target_name action].


(** ** The world outside the module *)

(** What the orchestrator needs from [os], from [converter_factory] and from
    the native [model_ckpt_util].  [FS] is the state of the file system; every
    operation that can touch it takes it and gives it back, and may raise. *)
Class Platform (Tensor : Type) : Type := {
  FS : Type;
  Loader : Type;
  Writer : Type;
  os_path_isfile : string → FS → bool;
  os_path_isdir : string → FS → bool;
  os_path_dirname : string → string;
  os_path_join : string → string → string;
  os_makedirs : string → FS → FS * result unit;
  create_ckpt_loader :
    string → string → bool → string → Z → Z → Z → string →
    FS → FS * result Loader;
  load_to_actions :
    Loader → FS → FS * result (list (QuantizationAction Tensor));
  create_writer : string → string → string → FS → FS * result Writer;
  write_variables :
    Writer → gmap string (Tensor * bool) → FS → FS * result unit;
  GenerateXnnpackTfLite :
    string → string → string → bool → string → FS → FS * result unit;
  GenerateMlDriftTfLite :
    string → string → string → bool → string → FS → FS * result unit;
}.

(** The calls the orchestrator makes, as they are recorded in order. *)
Inductive call : Type :=
| Call_logging_info (fmt arg : string)
| Call_os_makedirs (path : string)
| Call_create_ckpt_loader (ckpt_format ckpt_path : string)
| Call_load_to_actions
| Call_quantize_by_actions (backend : string) (is_symmetric : bool)
| Call_create_writer (writer_type output_dir backend : string)
| Call_write_variables
| Call_GenerateXnnpackTfLite
    (model_type weight_path vocab_model_file : string) (embed : bool)
    (output_tflite_file : string)
| Call_GenerateMlDriftTfLite
    (model_type weight_path vocab_model_file : string) (embed : bool)
    (output_tflite_file : string).

(** Loader, executor, writer and generator calls, told apart from logging and
    directory creation. *)
Definition is_loader_call (c : call) : bool :=
  match c with
  | Call_create_ckpt_loader _ _ | Call_load_to_actions => true
  | _ => false
  end.

Definition is_executor_call (c : call) : bool :=
  match c with Call_quantize_by_actions _ _ => true | _ => false end.

Definition is_writer_call (c : call) : bool :=
  match c with
  | Call_create_writer _ _ _ | Call_write_variables => true
  | _ => false
  end.

Definition is_generator_call (c : call) : bool :=
  match c with
  | Call_GenerateXnnpackTfLite _ _ _ _ _
  | Call_GenerateMlDriftTfLite _ _ _ _ _ => true
  | _ => false
  end.

Record world {Tensor} `{!Platform Tensor} : Type := World {
  fs : FS;
  calls : list call;
}.

(** A computation on a state [S] that returns or raises; what it did to the
    state before raising stays done. *)
Definition M (S A : Type) : Type := S → S * result A.

#[global] Instance M_ret {S} : MRet (M S) := λ A a s, (s, Ok a).
#[global] Instance M_bind {S} : MBind (M S) :=
  λ A B f m s,
    match m s with
    | (s', Ok a) => f a s'
    | (s', Raise e) => (s', Raise e)
    end.

Definition raise {S A} (e : exn) : M S A := λ s, (s, Raise e).

(** Nothing to do: the branch of an [if] that has no [else]. *)
Definition pass {S} : M S unit := mret ().

(** The value of an attribute of a config object. *)
Inductive attr : Type :=
| AStr (s : string)
| ABool (b : bool)
| AInt (z : Z).

(** A fully constructed config, as [convert_checkpoint] reads it. *)
Record ConversionConfig : Type := {
  input_ckpt : string;
  ckpt_format : string;
  model_type : string;
  backend : string;
  output_dir : string;
  is_symmetric : bool;
  attention_quant_bits : Z;
  feedforward_quant_bits : Z;
  embedding_quant_bits : Z;
  combine_file_only : bool;
  vocab_model_file : string;
  output_tflite_file : string;
}.

Section Orchestrator.
Context {Tensor : Type} `{!QuantizationUtil Tensor} `{!Platform Tensor}.

(** A call of the orchestrator: recorded, then run on the file system. *)
Definition external {A} (c : call) (f : FS → FS * result A) : M world A :=
  λ w, let '(fs', r) := f (fs w) in
       ({| fs := fs'; calls := calls w ++ [c] |}, r).

(** A read of the file system; it is not recorded. *)
Definition probe {A} (f : FS → A) : M world A := λ w, (w, Ok (f (fs w))).

Definition logging_info (fmt arg : string) : M world unit :=
  external (Call_logging_info fmt arg) (λ fs, (fs, Ok ())).

Definition makedirs_exist_ok (path : string) : M world unit :=
  external (Call_os_makedirs path) (os_makedirs path).

(** *** [ConversionConfig] *)


(** [self.name = v] on the object under construction. *)
Definition setattr (name : string) (v : attr)
  : M (gmap string attr * world) unit :=
  λ '(self, w), ((<[name := v]> self, w), Ok ()).

Definition in_world {A} (m : M world A) : M (gmap string attr * world) A :=
  λ '(self, w), let '(w', r) := m w in ((self, w'), r).

(** Truth value of an optional string: [None] and [''] are false. *)
Definition truthy_str (s : option string) : bool :=
  match s with
  | None => false
  | Some s => negb (String.eqb s "")
  end.

Definition ConversionConfig__init__
    (input_ckpt ckpt_format model_type backend output_dir : string)
    (is_symmetric : bool)
    (attention_quant_bits feedforward_quant_bits embedding_quant_bits : Z)
    (combine_file_only : bool) (vocab_model_file : string)
    (output_tflite_file : option string)
  : M (gmap string attr * world) unit :=
  setattr "input_ckpt" (AStr input_ckpt);;
  setattr "ckpt_format" (AStr ckpt_format);;
  setattr "model_type" (AStr model_type);;
  setattr "backend" (AStr backend);;
  isfile ← in_world (probe (os_path_isfile output_dir));
  (if (isfile : bool)
   then raise
          (ValueError "Output directory mush not point to an existing file.")
   else pass);;
  isdir ← in_world (probe (os_path_isdir output_dir));
  (if negb (isdir : bool)
   then in_world (logging_info "Creating output directory: %s" output_dir);;
        in_world (makedirs_exist_ok output_dir)
   else pass);;
  setattr "output_dir" (AStr output_dir);;
  setattr "is_symmetric" (ABool is_symmetric);;
  setattr "attention_quant_bits" (AInt attention_quant_bits);;
  setattr "feedforward_quant_bits" (AInt feedforward_quant_bits);;
  setattr "embedding_quant_bits" (AInt embedding_quant_bits);;
  setattr "combine_file_only" (ABool combine_file_only);;
  setattr "vocab_model_file" (AStr vocab_model_file);;
  if truthy_str output_tflite_file then
    let output_tflite_file := default "" output_tflite_file in
    let parent_dir := os_path_dirname output_tflite_file in
    isdir ← in_world (probe (os_path_isdir parent_dir));
    (if negb (isdir : bool)
     then in_world
            (logging_info "Creating tflite parent directory: %s" parent_dir);;
          in_world (makedirs_exist_ok parent_dir)
     else pass);;
    setattr "output_tflite_file" (AStr output_tflite_file)
  else
    setattr "output_tflite_file"
      (AStr (os_path_join output_dir "model.tflite")).

(** [ConversionConfig(...)]: a fresh object, initialised.  The attributes
    set so far are returned next to the outcome, so that a failed
    construction can be inspected. *)
Definition ConversionConfig_new
    (input_ckpt ckpt_format model_type backend output_dir : string)
    (is_symmetric : bool)
    (attention_quant_bits feedforward_quant_bits embedding_quant_bits : Z)
    (combine_file_only : bool) (vocab_model_file : string)
    (output_tflite_file : option string) (w : world)
  : gmap string attr * world * result unit :=
  ConversionConfig__init__ input_ckpt ckpt_format model_type backend
    output_dir is_symmetric attention_quant_bits feedforward_quant_bits
    embedding_quant_bits combine_file_only vocab_model_file
    output_tflite_file (∅, w).


Definition get_str (self : gmap string attr) (name : string) : option string :=
  match self !! name with Some (AStr s) => Some s | _ => None end.
Definition get_bool (self : gmap string attr) (name : string) : option bool :=
  match self !! name with Some (ABool b) => Some b | _ => None end.
Definition get_int (self : gmap string attr) (name : string) : option Z :=
  match self !! name with Some (AInt z) => Some z | _ => None end.

(** The attributes of a constructed object, read back as a config. *)
Definition config_of_self (self : gmap string attr) : option ConversionConfig :=
  a ← get_str self "input_ckpt";
  b ← get_str self "ckpt_format";
  c ← get_str self "model_type";
  d ← get_str self "backend";
  e ← get_str self "output_dir";
  f ← get_bool self "is_symmetric";
  g ← get_int self "attention_quant_bits";
  h ← get_int self "feedforward_quant_bits";
  i ← get_int self "embedding_quant_bits";
  j ← get_bool self "combine_file_only";
  k ← get_str self "vocab_model_file";
  l ← get_str self "output_tflite_file";
  Some {| input_ckpt := a; ckpt_format := b; model_type := c; backend := d;
          output_dir := e; is_symmetric := f; attention_quant_bits := g;
          feedforward_quant_bits := h; embedding_quant_bits := i;
          combine_file_only := j; vocab_model_file := k;
          output_tflite_file := l |}.

(** *** [combined_weight_bins_to_tflite] and [convert_checkpoint] *)

Definition combined_weight_bins_to_tflite
    (model_type backend weight_path output_tflite_file
       vocab_model_file : string)
  : M world unit :=
  if String.eqb backend "xnnpack" then
    external
      (Call_GenerateXnnpackTfLite model_type weight_path vocab_model_file
         true output_tflite_file)
      (GenerateXnnpackTfLite model_type weight_path vocab_model_file
         true output_tflite_file)
  else if String.eqb backend "ml_drift" then
    external
      (Call_GenerateMlDriftTfLite model_type weight_path vocab_model_file
         true output_tflite_file)
      (GenerateMlDriftTfLite model_type weight_path vocab_model_file
         true output_tflite_file)
  else raise (ValueError ("Unsupported backend: " +:+ backend)).

Definition convert_checkpoint (config : ConversionConfig) : M world unit :=
  logging_info "input folder: %s" (input_ckpt config);;
  (if negb (combine_file_only config) then
     loader ← external
       (Call_create_ckpt_loader (ckpt_format config) (input_ckpt config))
       (create_ckpt_loader (ckpt_format config) (input_ckpt config)
          (is_symmetric config) (backend config)
          (attention_quant_bits config) (feedforward_quant_bits config)
          (embedding_quant_bits config) (model_type config));
     actions ← external Call_load_to_actions (load_to_actions loader);
     quantized_tensors ← external
       (Call_quantize_by_actions (backend config) (is_symmetric config))
       (λ fs, (fs, quantize_by_actions actions (backend config)
                     (is_symmetric config)));
     writer ← external
       (Call_create_writer "weight_bins" (output_dir config)
          (backend config))
       (create_writer "weight_bins" (output_dir config) (backend config));
     external Call_write_variables (write_variables writer quantized_tensors)
   else pass);;
  combined_weight_bins_to_tflite (model_type config) (backend config)
    (output_dir config) (output_tflite_file config)
    (vocab_model_file config).

End Orchestrator.

(** The calls of a conversion that runs to its end, in the order of the
    statements of [convert_checkpoint]. *)
Definition expected_calls (config : ConversionConfig) : list call :=
  Call_logging_info "input folder: %s" (input_ckpt config)
  :: (if combine_file_only config then []
      else
        [Call_create_ckpt_loader (ckpt_format config) (input_ckpt config);
         Call_load_to_actions;
         Call_quantize_by_actions (backend config) (is_symmetric config);
         Call_create_writer "weight_bins" (output_dir config)
           (backend config);
         Call_write_variables])
  ++ (if String.eqb (backend config) "xnnpack" then
        [Call_GenerateXnnpackTfLite (model_type config) (output_dir config)
           (vocab_model_file config) true (output_tflite_file config)]
      else if String.eqb (backend config) "ml_drift" then
        [Call_GenerateMlDriftTfLite (model_type config) (output_dir config)
           (vocab_model_file config) true (output_tflite_file config)]
      else []).

(** ** A reference instance of the interfaces

    The theorems below are about every implementation of [QuantizationUtil]
    and [Platform].  To run the executor and the orchestrator on concrete
    inputs, here is one of each: the primitives as the specification gives
    them, over matrices of rationals, and an in-memory platform. *)

Module Reference.

(** A matrix given by its rows; exact rationals stand for the floats. *)
Definition tensor : Type := list (list Q).

(** Rounding to the nearest integer, halves away from zero (one of the two
    roundings the spec allows). *)
Definition Qround (x : Q) : Z :=
  let n := Qnum x in
  let d := Z.pos (Qden x) in
  Z.sgn n * ((2 * Z.abs n + d) / (2 * d)).

Definition clamp (lo hi z : Z) : Z := Z.max lo (Z.min hi z).

Definition Qmin_list (x : Q) (xs : list Q) : Q := foldr Qmin x xs.
Definition Qmax_list (x : Q) (xs : list Q) : Q := foldr Qmax x xs.

(** The spec leaves the epsilon of a degenerate slice open. *)
Definition epsilon : Q := 1 # 1000000.

Definition nonzero_scale (s : Q) : Q := if Qeq_bool s 0 then epsilon else Qred s.

(** Modelled from the spec: the symmetric mode of
    [quantization_util.quantize_tensor] on one slice,
    scale = max(|min|, |max|) / (2^(bits-1) - 1), values rounded and clamped
    to [-(2^(bits-1)-1), 2^(bits-1)-1]. *)
Definition quantize_slice_sym (bits : Z) (slice : list Q) : list Q * Q :=
  match slice with
  | [] => ([], epsilon)
  | x :: xs =>
      let qmax := 2 ^ (bits - 1) - 1 in
      let amax := Qmax (Qabs (Qmin_list x xs)) (Qabs (Qmax_list x xs)) in
      let scale := nonzero_scale (amax / inject_Z qmax) in
      (map (λ v, inject_Z (clamp (- qmax) qmax (Qround (v / scale)))) slice,
       scale)
  end.

(** Modelled from the spec: the asymmetric mode on one slice,
    scale = (max - min) / (2^bits - 1), zero_point = round(-min / scale)
    clamped to [0, 2^bits - 1], values rounded, shifted by the zero point
    and clamped to the same range. *)
Definition quantize_slice_asym (bits : Z) (slice : list Q)
  : list Q * Q * Q :=
  match slice with
  | [] => ([], epsilon, 0%Q)
  | x :: xs =>
      let top := 2 ^ bits - 1 in
      let lo := Qmin_list x xs in
      let scale := nonzero_scale ((Qmax_list x xs - lo) / inject_Z top) in
      let zp := clamp 0 top (Qround (- lo / scale)) in
      (map (λ v, inject_Z (clamp 0 top (Qround (v / scale) + zp))) slice,
       scale, inject_Z zp)
  end.

(** Columns of a matrix (of the width of its first row) and back. *)
Definition transpose (t : tensor) : tensor :=
  match t with
  | [] => []
  | row :: _ =>
      map (λ j, omap (λ r : list Q, r !! j) t) (seq 0 (length row))
  end.

(** The slices along an axis of a matrix: its rows for axis 0, its columns
    for axis 1; any other axis is out of bounds. *)
Definition slices (axis : option Z) (t : tensor) : result tensor :=
  match axis with
  | Some 0 => Ok t
  | Some 1 => Ok (transpose t)
  | _ => Raise (ValueError "axis out of bounds")
  end.

Definition unslice (axis : option Z) (t : tensor) : tensor :=
  match axis with
  | Some 1 => transpose t
  | _ => t
  end.

(** Modelled from the spec: [quantization_util.quantize_tensor], one scale
    (and zero point) per index along [axis], bit widths 2 to 8. *)
Definition quantize_tensor (var : tensor) (axis : option Z) (sym : bool)
    (number_bits : Z) : result (pytuple tensor) :=
  if (2 <=? number_bits) && (number_bits <=? 8) then
    ss ← slices axis var;
    if sym then
      let qs := map (quantize_slice_sym number_bits) ss in
      Ok (Tuple2 (unslice axis (map fst qs)) (map (λ q, [snd q]) qs))
    else
      let qs := map (quantize_slice_asym number_bits) ss in
      Ok (Tuple3 (unslice axis (map (λ q, fst (fst q)) qs))
                 (map (λ q, [snd (fst q)]) qs)
                 (map (λ q, [snd q]) qs))
  else Raise (ValueError "number_bits must be between 2 and 8").

(** Modelled from the spec: [quantization_util.update_to_uint4] adds 8 to the
    quantized values and to the zero points and leaves the scale alone. *)
Definition update_to_uint4 (var scale zp : tensor)
  : result (pytuple tensor) :=
  let shift := map (map (λ v, Qred (v + 8))) in
  Ok (Tuple3 (shift var) scale (shift zp)).

#[global] Instance quantization_util : QuantizationUtil tensor :=
  Build_QuantizationUtil tensor quantize_tensor update_to_uint4.

(** *** An in-memory platform

    Paths are plain strings and a file system maps a path to what is there.
    Its files have no content: a checkpoint holds no tensors, and weight and
    model files are only created. *)

Inductive node : Type := File | Dir.

#[global] Instance node_eq_dec : EqDecision node.
Proof. solve_decision. Defined.

Definition isfile (path : string) (fs : gmap string node) : bool :=
  bool_decide (fs !! path = Some File).

Definition isdir (path : string) (fs : gmap string node) : bool :=
  bool_decide (fs !! path = Some Dir).

Definition is_slash (c : ascii) : bool := Ascii.eqb c "/"%char.

Fixpoint drop_while {A} (p : A → bool) (l : list A) : list A :=
  match l with
  | [] => []
  | x :: l' => if p x then drop_while p l' else l
  end.

(** [posixpath.dirname]: up to the last slash, trailing slashes stripped
    unless nothing else is left. *)
Definition dirname (path : string) : string :=
  let head :=
    reverse (drop_while (λ c, negb (is_slash c))
               (reverse (String.list_ascii_of_string path))) in
  if forallb is_slash head then String.string_of_list_ascii head
  else String.string_of_list_ascii (reverse (drop_while is_slash (reverse head))).

(** [posixpath.join] of two components. *)
Definition join (a b : string) : string :=
  match b with
  | String "/"%char _ => b
  | _ =>
      if String.eqb a "" || forallb is_slash
                              (take 1 (reverse (String.list_ascii_of_string a)))
      then a +:+ b
      else a +:+ "/" +:+ b
  end.

(** [os.makedirs(path, exist_ok=True)], without the intermediate
    directories. *)
Definition makedirs (path : string) (fs : gmap string node)
  : gmap string node * result unit :=
  if String.eqb path "" then
    (fs, Raise (Exn "FileNotFoundError" "No such file or directory: ''"))
  else if isfile path fs then
    (fs, Raise (Exn "FileExistsError" ("File exists: " +:+ path)))
  else (<[path := Dir]> fs, Ok ()).

(** Modelled from the spec: the external loader, constructed from the
    checkpoint path and the run's settings, whose [load_to_actions] gives
    the ordered actions (none here). *)
Definition new_loader (ckpt_format ckpt_path : string) (is_symmetric : bool)
    (backend : string) (attention ffn embedding : Z) (special_model : string)
    (fs : gmap string node) : gmap string node * result string :=
  (fs, Ok ckpt_path).

Definition load (loader : string) (fs : gmap string node)
  : gmap string node * result (list (QuantizationAction tensor)) :=
  if isfile loader fs then (fs, Ok [])
  else (fs, Raise (Exn "FileNotFoundError" loader)).

(** Modelled from the spec: the external writer, constructed from the
    output directory and the backend, whose [write_variables] writes a
    weight file to the output directory. *)
Definition new_writer (writer_type output_dir backend : string)
    (fs : gmap string node) : gmap string node * result string :=
  (fs, Ok output_dir).

Definition write (writer : string) (vars : gmap string (tensor * bool))
    (fs : gmap string node) : gmap string node * result unit :=
  (<[join writer "weights.bin" := File]> fs, Ok ()).

(** Modelled from the spec: an entry point of the external artifact
    generator, which reads the weight directory and produces the model
    file. *)
Definition generate (model_type weight_path vocab_model_file : string)
    (embed : bool) (output_tflite_file : string) (fs : gmap string node)
  : gmap string node * result unit :=
  if isdir weight_path fs then (<[output_tflite_file := File]> fs, Ok ())
  else (fs, Raise (Exn "RuntimeError" "weight path is not a directory")).

#[global] Instance platform : Platform tensor :=
  Build_Platform tensor (gmap string node) string string
    isfile isdir dirname join makedirs new_loader load new_writer write
    generate generate.

(** *** Sample inputs *)

Definition rows4 : tensor :=
  [[1; -2; 3]; [0; 0; 0]; [1 # 2; 1 # 4; -1]; [10; 20; 127]]%Q.

Definition rows2 : tensor := [[1; -2]; [3; 4]]%Q.


(** A 4-bit action along axis 1. *)
Definition action_w4 : QuantizationAction tensor :=
  {| target_name := "w"; tensor_value := rows2;
     quantize_axis := Some 1; quantize_bits := 4 |}.

(** An 8-bit action along axis 1. *)
Definition action_w8 : QuantizationAction tensor :=
  {| target_name := "w"; tensor_value := rows4;
     quantize_axis := Some 1; quantize_bits := 8 |}.

(** Two actions without an axis that share a target name. *)
Definition action_norm : QuantizationAction tensor :=
  {| target_name := "norm"; tensor_value := rows2;
     quantize_axis := None; quantize_bits := 8 |}.


(** An action the primitive refuses: nine bits. *)
Definition action_nine_bits : QuantizationAction tensor :=
  {| target_name := "emb"; tensor_value := rows2;
     quantize_axis := Some 1; quantize_bits := 9 |}.

(** A file system where [out] is a regular file, and one where it is a
    directory. *)
Definition fs_out_is_file : gmap string node := {[ "out" := File ]}.
Definition fs_out_is_dir : gmap string node := {[ "out" := Dir ]}.

Definition world_out_is_file : world := {| fs := fs_out_is_file; calls := [] |}.
Definition world_out_is_dir : world := {| fs := fs_out_is_dir; calls := [] |}.

(** The in-memory platform whose checkpoint holds the given actions. *)
Definition load_of (ckpt : list (QuantizationAction tensor))
    (loader : string) (fs : gmap string node)
  : gmap string node * result (list (QuantizationAction tensor)) :=
  if isfile loader fs then (fs, Ok ckpt)
  else (fs, Raise (Exn "FileNotFoundError" loader)).

Definition platform_holding (ckpt : list (QuantizationAction tensor))
  : Platform tensor :=
  Build_Platform tensor (gmap string node) string string
    isfile isdir dirname join makedirs new_loader (load_of ckpt) new_writer
    write generate generate.

(** A file system with a checkpoint file and an output directory, and an
    empty one. *)
Definition fs_ready : gmap string node :=
  {[ "ckpt" := File; "out" := Dir ]}.
Definition world_ready : world := {| fs := fs_ready; calls := [] |}.
Definition world_empty : world := {| fs := ∅; calls := [] |}.

Definition world_holding (ckpt : list (QuantizationAction tensor))
  : @world tensor (platform_holding ckpt) :=
  @World tensor (platform_holding ckpt) fs_ready [].

(** Configs for a full conversion and for a combine-only one. *)
Definition config_full (backend : string) : ConversionConfig :=
  Build_ConversionConfig "ckpt" "safetensors" "GEMMA_2B" backend "out"
    false 8 8 8 false "" "out/model.tflite".

Definition config_combine (backend : string) : ConversionConfig :=
  Build_ConversionConfig "ckpt" "safetensors" "GEMMA_2B" backend "out"
    true 8 8 8 true "" "out/model.tflite".

(** A combine-only config for a backend that does not exist. *)
Definition config_unsupported : ConversionConfig :=
  {| input_ckpt := "ckpt"; ckpt_format := "safetensors";
     model_type := "GEMMA_2B"; backend := "unsupported";
     output_dir := "out"; is_symmetric := true;
     attention_quant_bits := 8; feedforward_quant_bits := 8;
     embedding_quant_bits := 8; combine_file_only := true;
     vocab_model_file := ""; output_tflite_file := "out/model.tflite" |}.

End Reference.

(** ** Output names *)

Lemma append_ne_self (n s : string) : s ≠ "" → n +:+ s ≠ n.
Proof.
  intros Hs. induction n as [|c n IH]; simpl.
  - exact Hs.
  - intros Heq. injection Heq as Heq. exact (IH Heq).
Qed.

Lemma scale_name_ne (n : string) : n +:+ "_quantized_scale" ≠ n.
Proof. apply append_ne_self. discriminate. Qed.

Lemma zp_name_ne (n : string) : n +:+ "_quantized_zp" ≠ n.
Proof. apply append_ne_self. discriminate. Qed.

Lemma scale_zp_name_ne (n : string) :
  n +:+ "_quantized_scale" ≠ n +:+ "_quantized_zp".
Proof.
  induction n as [|c n IH]; simpl.
  - discriminate.
  - intros Heq. injection Heq as Heq. exact (IH Heq).
Qed.

Create HintDb names.


#[local] Hint Resolve scale_name_ne zp_name_ne scale_zp_name_ne : names.

(** Equalities of small sets of keys. *)
Ltac set_tauto :=
  apply set_eq; intros ?;
  rewrite ?elem_of_union, ?elem_of_singleton, ?elem_of_empty; tauto.

(** ** The executor, one action at a time *)

Section Executor.
Context {Tensor : Type} `{!QuantizationUtil Tensor}.
Implicit Types (a action : QuantizationAction Tensor).
Implicit Types (m out : gmap string (Tensor * bool)).
Implicit Types (backend : string) (is_symmetric sym : bool).

(** An action whose axis is falsy is copied, whatever the rest says. *)
Lemma quantize_action_falsy backend sym m a :
  truthy (quantize_axis a) = false →
  quantize_action backend sym m a
  = Ok (<[target_name a := (tensor_value a, false)]> m).
Proof. intros Hax. unfold quantize_action. by rewrite Hax. Qed.




(** What a quantizing step that returned has written. *)
Lemma quantize_action_truthy_inv backend sym m a m' :
  truthy (quantize_axis a) = true →
  quantize_action backend sym m a = Ok m' →
  ∃ q s,
    if sym then
      m' = <[target_name a +:+ "_quantized_scale" := (s, false)]>
           (<[target_name a := (q, quantize_bits a =? 4)]> m)
    else
      ∃ z,
      m' = <[target_name a +:+ "_quantized_zp" := (z, false)]>
           (<[target_name a +:+ "_quantized_scale" := (s, false)]>
            (<[target_name a := (q, quantize_bits a =? 4)]> m)).
Proof.
  intros Hax. unfold quantize_action. rewrite Hax. destruct sym.
  - destruct (quantize_tensor _ _ _ _) as [[q s|? ? ?]|e]; simpl; try done.
    intros [= <-]. by exists q, s.
  - destruct (quantize_tensor _ _ _ _) as [[? ?|q s z]|e]; simpl; try done.
    destruct (String.eqb backend "xnnpack" && (quantize_bits a =? 4)).
    + destruct (update_to_uint4 q s z) as [[? ?|q' s' z']|e]; simpl;
        try done.
      intros [= <-]. by exists q', s', z'.
    + simpl. intros [= <-]. by exists q, s, z.
Qed.


(** The loop over a list that ends in one more action. *)
Lemma quantize_loop_app backend sym l1 l2 m :
  quantize_loop backend sym (l1 ++ l2) m
  = (out ← quantize_loop backend sym l1 m; quantize_loop backend sym l2 out).
Proof.
  revert m. induction l1 as [|a l1 IH]; intros m; simpl; [done|].
  destruct (quantize_action backend sym m a) as [m'|e]; simpl; [|done].
  apply IH.
Qed.

(** Entries are written and overwritten, never removed. *)
Lemma quantize_action_keeps backend sym m a m' k :
  quantize_action backend sym m a = Ok m' →
  is_Some (m !! k) → is_Some (m' !! k).
Proof.
  intros Hstep Hk. destruct (truthy (quantize_axis a)) eqn:Hax.
  - destruct (quantize_action_truthy_inv _ _ _ _ _ Hax Hstep) as (q & s & H).
    destruct sym; [|destruct H as [z H]]; subst m';
      rewrite !lookup_insert_is_Some'; tauto.
  - rewrite quantize_action_falsy in Hstep by done.
    injection Hstep as <-. rewrite lookup_insert_is_Some'. tauto.
Qed.

Lemma quantize_loop_keeps backend sym l m out k :
  quantize_loop backend sym l m = Ok out →
  is_Some (m !! k) → is_Some (out !! k).
Proof.
  revert m. induction l as [|a l IH]; intros m; simpl.
  - by intros [= <-].
  - destruct (quantize_action backend sym m a) as [m'|e] eqn:Hstep; simpl;
      [|done].
    intros Hloop Hk. eapply IH; [done|]. by eapply quantize_action_keeps.
Qed.

(** Every action of a run that returned has an entry under its name. *)
Lemma quantize_loop_has_name backend sym l m out a :
  quantize_loop backend sym l m = Ok out →
  a ∈ l → is_Some (out !! target_name a).
Proof.
  revert m. induction l as [|a' l IH]; intros m; simpl.
  - intros _ Hin. by apply elem_of_nil in Hin.
  - destruct (quantize_action backend sym m a') as [m'|e] eqn:Hstep; simpl;
      [|done].
    intros Hloop Hin. apply elem_of_cons in Hin as [->|Hin]; [|by eapply IH].
    eapply quantize_loop_keeps; [done|].
    destruct (truthy (quantize_axis a')) eqn:Hax.
    + destruct (quantize_action_truthy_inv _ _ _ _ _ Hax Hstep)
        as (q & s & H).
      destruct sym; [|destruct H as [z H]]; subst m';
        rewrite !lookup_insert_is_Some'; tauto.
    + rewrite quantize_action_falsy in Hstep by done.
      injection Hstep as <-. rewrite lookup_insert_is_Some'. tauto.
Qed.

End Executor.

(** ** What the executor writes *)

Section ExecutorProperties.
Context {Tensor : Type} `{!QuantizationUtil Tensor}.
Implicit Types (a action : QuantizationAction Tensor).
Implicit Types (m out : gmap string (Tensor * bool)).
Implicit Types (backend : string) (is_symmetric sym : bool).

(** The keys of the dictionary after one step are the keys before it and the
    output names of the action. *)
Lemma quantize_action_dom backend sym m a m' :
  quantize_action backend sym m a = Ok m' →
  dom m' = dom m ∪ list_to_set (output_names sym a).
Proof.
  intros Hstep. unfold output_names.
  destruct (truthy (quantize_axis a)) eqn:Hax.
  - destruct (quantize_action_truthy_inv _ _ _ _ _ Hax Hstep) as (q & s & H).
    destruct sym; [|destruct H as [z H]]; subst m';
      rewrite !dom_insert_L; simpl; set_tauto.
  - rewrite quantize_action_falsy in Hstep by done.
    injection Hstep as <-. rewrite dom_insert_L. simpl. set_tauto.
Qed.

Lemma quantize_loop_dom backend sym l m out :
  quantize_loop backend sym l m = Ok out →
  dom out = dom m ∪ list_to_set (l ≫= output_names sym).
Proof.
  revert m. induction l as [|a l IH]; intros m; simpl.
  - intros [= <-]. set_tauto.
  - destruct (quantize_action backend sym m a) as [m'|e] eqn:Hstep; simpl;
      [|done].
    intros Hloop. rewrite (IH _ Hloop), (quantize_action_dom _ _ _ _ _ Hstep).
    by rewrite list_to_set_app_L, (assoc_L (∪)).
Qed.

(** The keys of the output of a run are exactly the output names of its
    actions. *)
Lemma quantize_by_actions_dom backend sym l out :
  quantize_by_actions l backend sym = Ok out →
  dom out = list_to_set (l ≫= output_names sym).
Proof.
  intros Hrun. apply quantize_loop_dom in Hrun. rewrite Hrun, dom_empty_L.
  by rewrite (left_id_L ∅ (∪)).
Qed.

(** A run of one action is one step on the empty dictionary. *)
Lemma quantize_by_actions_singleton backend sym a :
  quantize_by_actions [a] backend sym = quantize_action backend sym ∅ a.
Proof.
  unfold quantize_by_actions. simpl.
  by destruct (quantize_action backend sym ∅ a).
Qed.


(** C8. An action whose [quantize_axis] is unset adds one entry: the step
    assigns the input tensor, as it is, under [target_name] with the pack
    flag off and leaves every other key alone, so no scale and no zero point
    comes with it; a run of that action alone has exactly that entry, and
    after any run that returned, one more such action adds just that
    entry. *)
Theorem unset_axis_copies_tensor backend sym a :
  quantize_axis a = None →
  (∀ m, quantize_action backend sym m a
        = Ok (<[target_name a := (tensor_value a, false)]> m))
  ∧ quantize_by_actions [a] backend sym
    = Ok {[ target_name a := (tensor_value a, false) ]}
  ∧ (∀ l out, quantize_by_actions l backend sym = Ok out →
       quantize_by_actions (l ++ [a]) backend sym
       = Ok (<[target_name a := (tensor_value a, false)]> out)).
Proof.
  intros Hax.
  assert (Hstep : ∀ m, quantize_action backend sym m a
                       = Ok (<[target_name a := (tensor_value a, false)]> m)).
  { intros m. apply quantize_action_falsy. by rewrite Hax. }
  split_and!.
  - exact Hstep.
  - by rewrite quantize_by_actions_singleton, Hstep, insert_empty.
  - intros l out Hrun. unfold quantize_by_actions in *.
    rewrite quantize_loop_app, Hrun. simpl. by rewrite Hstep.
Qed.

(** *** Pack flags along a run *)
















(** C10. With the symmetry flag on, the output of the executor is the same
    for every backend tag: for all action lists and all backends [b1] and
    [b2], the two runs return the same dictionary or raise the same
    exception. *)
Theorem symmetric_run_ignores_backend
    (l : list (QuantizationAction Tensor)) (b1 b2 : string) :
  quantize_by_actions l b1 true = quantize_by_actions l b2 true.
Proof.
  unfold quantize_by_actions. generalize (∅ : gmap string (Tensor * bool)).
  induction l as [|a l IH]; intros m; simpl; [done|].
  assert (Hstep : quantize_action b1 true m a = quantize_action b2 true m a).
  { unfold quantize_action. by destruct (truthy (quantize_axis a)). }
  rewrite Hstep. destruct (quantize_action b2 true m a); simpl; [|done].
  apply IH.
Qed.


End ExecutorProperties.

(** ** The orchestrator *)

Section OrchestratorProperties.
Context {Tensor : Type} `{!QuantizationUtil Tensor} `{!Platform Tensor}.

(** The dispatch on the backend tag raises for a tag that is neither
    [xnnpack] nor [ml_drift], and calls nothing. *)
Lemma combined_weight_bins_to_tflite_unsupported
    (model_type backend weight_path output_tflite_file
       vocab_model_file : string) (w : world) :
  backend ≠ "xnnpack" → backend ≠ "ml_drift" →
  combined_weight_bins_to_tflite model_type backend weight_path
    output_tflite_file vocab_model_file w
  = (w, Raise (ValueError ("Unsupported backend: " +:+ backend))).
Proof.
  intros Hx Hm. unfold combined_weight_bins_to_tflite.
  apply String.eqb_neq in Hx, Hm. by rewrite Hx, Hm.
Qed.

(** C5. A conversion with [combine_file_only] set and a backend tag that is
    neither [xnnpack] nor [ml_drift] fails with
    [ValueError "Unsupported backend: <tag>"], raised by the dispatch of
    [combined_weight_bins_to_tflite]; the only call that was made is the
    logging of the input folder, so no loader, executor, writer or generator
    ran, and the file system is as before. *)
Theorem combine_only_unsupported_backend_fails_at_dispatch
    (config : ConversionConfig) (w : world) :
  combine_file_only config = true →
  backend config ≠ "xnnpack" → backend config ≠ "ml_drift" →
  let logged :=
    {| fs := fs w;
       calls := calls w
                ++ [Call_logging_info "input folder: %s" (input_ckpt config)] |}
  in
  convert_checkpoint config w
  = (logged, Raise (ValueError ("Unsupported backend: " +:+ backend config)))
  ∧ combined_weight_bins_to_tflite (model_type config) (backend config)
      (output_dir config) (output_tflite_file config)
      (vocab_model_file config) logged
    = (logged,
       Raise (ValueError ("Unsupported backend: " +:+ backend config)))
  ∧ ∃ made, calls (convert_checkpoint config w).1 = calls w ++ made
      ∧ Forall (λ c, is_loader_call c = false ∧ is_executor_call c = false
                     ∧ is_writer_call c = false
                     ∧ is_generator_call c = false) made.
Proof.
  intros Hcombine Hx Hm logged.
  assert (Hrun : convert_checkpoint config w
    = (logged,
       Raise (ValueError ("Unsupported backend: " +:+ backend config)))).
  { unfold convert_checkpoint. rewrite Hcombine.
    unfold mbind, M_bind, logging_info, external, pass, mret, M_ret.
    cbn -[combined_weight_bins_to_tflite].
    by rewrite combined_weight_bins_to_tflite_unsupported. }
  split_and!.
  - exact Hrun.
  - by apply combined_weight_bins_to_tflite_unsupported.
  - rewrite Hrun. eexists. split; [done|].
    by apply Forall_singleton.
Qed.

(** C6. Constructing a config whose [output_dir] is an existing regular file
    raises [ValueError] during construction: the object has just the first
    four attributes ([input_ckpt], [ckpt_format], [model_type], [backend]),
    and the world is as it was, so nothing was logged or created and no
    loader, executor, writer or generator was called. *)
Theorem output_dir_is_a_file_fails_construction
    (input_ckpt ckpt_format model_type backend output_dir : string)
    (is_symmetric : bool)
    (attention_quant_bits feedforward_quant_bits embedding_quant_bits : Z)
    (combine_file_only : bool) (vocab_model_file : string)
    (output_tflite_file : option string) (w : world) :
  os_path_isfile output_dir (fs w) = true →
  let four : gmap string attr :=
    <["backend" := AStr backend]>
      (<["model_type" := AStr model_type]>
         (<["ckpt_format" := AStr ckpt_format]>
            (<["input_ckpt" := AStr input_ckpt]> ∅))) in
  ConversionConfig_new input_ckpt ckpt_format model_type backend output_dir
    is_symmetric attention_quant_bits feedforward_quant_bits
    embedding_quant_bits combine_file_only vocab_model_file
    output_tflite_file w
  = (four, w,
     Raise (ValueError "Output directory mush not point to an existing file."))
  ∧ dom four = {[ "input_ckpt"; "ckpt_format"; "model_type"; "backend" ]}
  ∧ config_of_self four = None.
Proof.
  intros Hfile four. split_and!.
  - unfold ConversionConfig_new, ConversionConfig__init__.
    unfold mbind, M_bind, setattr, in_world, probe. cbn.
    by rewrite Hfile.
  - unfold four. rewrite !dom_insert_L, dom_empty_L. set_tauto.
  - by vm_compute.
Qed.

End OrchestratorProperties.

(** ** The end-to-end scenarios on the reference instance *)


(** Called on the four rows along axis 0, the primitive of the reference
    instance does give four scales, one per row. *)
Example reference_quantize_tensor_rows4 :
  ∃ q s, Reference.quantize_tensor Reference.rows4 (Some 0) true 8
         = Ok (Tuple2 q s)
         ∧ length s = 4%nat.
Proof. eexists _, _. split; [vm_compute; reflexivity|reflexivity]. Qed.


(** ** The theorems at concrete inputs *)


Lemma unset_axis_copies_tensor_witness :
  quantize_axis Reference.action_norm = None
  ∧ quantize_by_actions [Reference.action_norm] "xnnpack" false
    = Ok {[ "norm" := (Reference.rows2, false) ]}.
Proof.
  split; [reflexivity|].
  exact (proj1 (proj2
    (unset_axis_copies_tensor "xnnpack" false Reference.action_norm
       eq_refl))).
Defined.





Lemma combine_only_unsupported_backend_fails_at_dispatch_witness :
  combine_file_only Reference.config_unsupported = true
  ∧ backend Reference.config_unsupported ≠ "xnnpack"
  ∧ backend Reference.config_unsupported ≠ "ml_drift"
  ∧ convert_checkpoint Reference.config_unsupported
      Reference.world_out_is_dir
    = ({| fs := Reference.fs_out_is_dir;
          calls := [Call_logging_info "input folder: %s" "ckpt"] |},
       Raise (ValueError "Unsupported backend: unsupported")).
Proof.
  assert (Hx : backend Reference.config_unsupported ≠ "xnnpack")
    by discriminate.
  assert (Hm : backend Reference.config_unsupported ≠ "ml_drift")
    by discriminate.
  split; [reflexivity|]. split; [exact Hx|]. split; [exact Hm|].
  exact (proj1
    (combine_only_unsupported_backend_fails_at_dispatch
       Reference.config_unsupported Reference.world_out_is_dir
       eq_refl Hx Hm)).
Defined.

Lemma output_dir_is_a_file_fails_construction_witness :
  os_path_isfile "out" (fs Reference.world_out_is_file) = true
  ∧ ConversionConfig_new "ckpt" "safetensors" "GEMMA_2B" "xnnpack" "out"
      true 8 8 8 false "" None Reference.world_out_is_file
    = (<["backend" := AStr "xnnpack"]>
         (<["model_type" := AStr "GEMMA_2B"]>
            (<["ckpt_format" := AStr "safetensors"]>
               (<["input_ckpt" := AStr "ckpt"]> ∅))),
       Reference.world_out_is_file,
       Raise
         (ValueError "Output directory mush not point to an existing file.")).
Proof.
  split; [reflexivity|].
  exact (proj1
    (output_dir_is_a_file_fails_construction "ckpt" "safetensors" "GEMMA_2B"
       "xnnpack" "out" true 8 8 8 false "" None Reference.world_out_is_file
       eq_refl)).
Defined.

(** ** Runs of the executor as a whole *)

Section ExecutorRuns.
Context {Tensor : Type} `{!QuantizationUtil Tensor}.
Implicit Types (a action : QuantizationAction Tensor).
Implicit Types (l : list (QuantizationAction Tensor)).
Implicit Types (m out : gmap string (Tensor * bool)).
Implicit Types (backend : string) (is_symmetric sym : bool).

(** A step on a dictionary is the step on the empty dictionary laid over
    it. *)
Lemma quantize_action_union backend sym m a :
  quantize_action backend sym m a
  = match quantize_action backend sym ∅ a with
    | Ok o => Ok (o ∪ m)
    | Raise e => Raise e
    end.
Proof.
  unfold quantize_action. destruct (truthy _).
  - destruct sym.
    + destruct (quantize_tensor _ _ _ _) as [[q s|? ? ?]|e]; simpl; [|done..].
      by rewrite <-!insert_union_l, (left_id_L ∅ (∪)).
    + destruct (quantize_tensor _ _ _ _) as [[? ?|q s z]|e]; simpl; [done| |done].
      destruct (String.eqb backend "xnnpack" && (quantize_bits a =? 4)); simpl.
      * destruct (update_to_uint4 q s z) as [[? ?|q' s' z']|e]; simpl;
          [done| |done].
        by rewrite <-!insert_union_l, (left_id_L ∅ (∪)).
      * by rewrite <-!insert_union_l, (left_id_L ∅ (∪)).
  - by rewrite <-insert_union_l, (left_id_L ∅ (∪)).
Qed.

Lemma quantize_loop_union backend sym l m :
  quantize_loop backend sym l m
  = match quantize_loop backend sym l ∅ with
    | Ok o => Ok (o ∪ m)
    | Raise e => Raise e
    end.
Proof.
  revert m. induction l as [|a l IH]; intros m; simpl.
  - by rewrite (left_id_L ∅ (∪)).
  - rewrite (quantize_action_union backend sym m a).
    destruct (quantize_action backend sym ∅ a) as [oa|e]; simpl; [|done].
    rewrite (IH (oa ∪ m)), (IH oa).
    destruct (quantize_loop backend sym l ∅) as [o|e]; [|done].
    by rewrite (assoc_L (∪)).
Qed.

(** A step leaves alone every key that is not an output name of its
    action. *)
Lemma quantize_action_untouched backend sym m a m' (k : string) :
  quantize_action backend sym m a = Ok m' →
  k ∉ output_names sym a → m' !! k = m !! k.
Proof.
  intros Hstep. unfold output_names.
  destruct (truthy (quantize_axis a)) eqn:Hax.
  - destruct (quantize_action_truthy_inv _ _ _ _ _ Hax Hstep) as (q & s & H).
    destruct sym; [|destruct H as [z H]]; subst m';
      rewrite !not_elem_of_cons; intros Hk;
      rewrite !lookup_insert_ne by (intros ?; destruct_and?; congruence);
      done.
  - rewrite quantize_action_falsy in Hstep by done.
    injection Hstep as <-. rewrite !not_elem_of_cons. intros Hk.
    by rewrite lookup_insert_ne by (intros ?; destruct_and?; congruence).
Qed.

Lemma quantize_loop_untouched backend sym l m out (k : string) :
  quantize_loop backend sym l m = Ok out →
  k ∉ l ≫= output_names sym → out !! k = m !! k.
Proof.
  revert m. induction l as [|a l IH]; intros m; simpl.
  - by intros [= <-].
  - destruct (quantize_action backend sym m a) as [m'|e] eqn:Hstep; simpl;
      [|done].
    rewrite not_elem_of_app. intros Hloop [Ha Hl].
    rewrite (IH _ Hloop Hl). by eapply quantize_action_untouched.
Qed.

(** An entry whose pack flag is on after a step was there before, or is the
    base entry of a 4-bit quantized action. *)
Lemma quantize_action_packed backend sym m a m' (k : string) (v : Tensor) :
  quantize_action backend sym m a = Ok m' →
  m' !! k = Some (v, true) →
  m !! k = Some (v, true)
  ∨ (target_name a = k ∧ truthy (quantize_axis a) = true
     ∧ quantize_bits a = 4).
Proof.
  intros Hstep. destruct (truthy (quantize_axis a)) eqn:Hax.
  - assert (Hbase : ∀ q, <[target_name a := (q, quantize_bits a =? 4)]> m !! k
                         = Some (v, true) →
              m !! k = Some (v, true)
              ∨ (target_name a = k ∧ true = true ∧ quantize_bits a = 4)).
    { intros q [[Hn [= _ Hb]]|[_ Hk]]%lookup_insert_Some; [|by left].
      right. split_and!; [done..|]. by apply Z.eqb_eq. }
    destruct (quantize_action_truthy_inv _ _ _ _ _ Hax Hstep) as (q & s & H).
    destruct sym; [|destruct H as [z H]]; subst m'.
    + intros [[_ [=]]|[_ Hk]]%lookup_insert_Some. by eapply Hbase.
    + intros [[_ [=]]|[_ Hk]]%lookup_insert_Some.
      apply lookup_insert_Some in Hk as [[_ [=]]|[_ Hk]]. by eapply Hbase.
  - rewrite quantize_action_falsy in Hstep by done.
    injection Hstep as <-. rewrite lookup_insert_Some.
    intros [[_ [=]]|[_ Hk]]. by left.
Qed.

Lemma quantize_loop_packed backend sym l m out (k : string) (v : Tensor) :
  quantize_loop backend sym l m = Ok out →
  out !! k = Some (v, true) →
  m !! k = Some (v, true)
  ∨ ∃ a, a ∈ l ∧ target_name a = k ∧ truthy (quantize_axis a) = true
         ∧ quantize_bits a = 4.
Proof.
  revert m. induction l as [|a l IH]; intros m; simpl.
  - intros [= <-]. by left.
  - destruct (quantize_action backend sym m a) as [m'|e] eqn:Hstep; simpl;
      [|done].
    intros Hloop Hk. destruct (IH _ Hloop Hk) as [Hm'|(a' & Hin & H)].
    + destruct (quantize_action_packed _ _ _ _ _ _ _ Hstep Hm') as [|H];
        [by left|].
      right. exists a. split; [by left|done].
    + right. exists a'. split; [by right|done].
Qed.

(** The backend enters a step only through the test for the adapter. *)
Lemma quantize_action_backend b1 b2 sym m a :
  (truthy (quantize_axis a) = true → sym = false →
   String.eqb b1 "xnnpack" && (quantize_bits a =? 4)
   = String.eqb b2 "xnnpack" && (quantize_bits a =? 4)) →
  quantize_action b1 sym m a = quantize_action b2 sym m a.
Proof.
  intros Hb. unfold quantize_action.
  destruct (truthy (quantize_axis a)); [|done].
  destruct sym; [done|]. by rewrite Hb.
Qed.

Lemma quantize_loop_backend b1 b2 sym l m :
  (∀ a, a ∈ l → truthy (quantize_axis a) = true → sym = false →
   String.eqb b1 "xnnpack" && (quantize_bits a =? 4)
   = String.eqb b2 "xnnpack" && (quantize_bits a =? 4)) →
  quantize_loop b1 sym l m = quantize_loop b2 sym l m.
Proof.
  revert m. induction l as [|a l IH]; intros m Hb; simpl; [done|].
  rewrite (quantize_action_backend b1 b2 sym m a)
    by (apply Hb; by left).
  destruct (quantize_action b2 sym m a); simpl; [|done].
  apply IH. intros a' Hin. apply Hb. by right.
Qed.

End ExecutorRuns.

Section ExecutorRunProperties.
Context {Tensor : Type} `{!QuantizationUtil Tensor}.
Implicit Types (a action : QuantizationAction Tensor).
Implicit Types (l : list (QuantizationAction Tensor)).
Implicit Types (m out : gmap string (Tensor * bool)).
Implicit Types (backend : string) (is_symmetric sym : bool).

Lemma size_list_to_set_le (ks : list string) :
  (size (list_to_set ks : gset string) ≤ length ks)%nat.
Proof.
  induction ks as [|k ks IH].
  - change (size (∅ : gset string) ≤ 0)%nat. by rewrite size_empty.
  - change (size ({[k]} ∪ list_to_set ks : gset string)
            ≤ S (length ks))%nat.
    rewrite size_union_alt, size_singleton.
    assert (size (list_to_set ks ∖ {[k]} : gset string)
            ≤ size (list_to_set ks : gset string))%nat as Hle; [|lia].
    apply subseteq_size. intros x. rewrite elem_of_difference. tauto.
Qed.

Lemma length_output_names sym a :
  (length (output_names sym a) ≤ if sym then 2 else 3)%nat.
Proof.
  unfold output_names. destruct (truthy _), sym; simpl; lia.
Qed.

Lemma length_bind_output_names sym l :
  (length (l ≫= output_names sym)
   ≤ (if sym then 2 else 3) * length l)%nat.
Proof.
  induction l as [|a l IH]; [destruct sym; simpl; lia|].
  rewrite bind_cons, length_app, length_cons.
  pose proof (length_output_names sym a). destruct sym; lia.
Qed.

(** X1. The keys of the output of a run are exactly the names the loop
    assigns to: for each action its [target_name], for each quantized action
    also the name with [_quantized_scale], and in an asymmetric run also the
    name with [_quantized_zp].  So every action has an entry under its name,
    and a run of n actions has at most 3n entries, at most 2n when it is
    symmetric. *)
Theorem output_keys_and_size backend sym l out :
  quantize_by_actions l backend sym = Ok out →
  dom out = list_to_set (l ≫= output_names sym)
  ∧ (∀ a, a ∈ l → is_Some (out !! target_name a))
  ∧ (size out ≤ 3 * length l)%nat
  ∧ (sym = true → size out ≤ 2 * length l)%nat.
Proof.
  intros Hrun. pose proof (quantize_by_actions_dom _ _ _ _ Hrun) as Hdom.
  assert (Hsize : (size out ≤ length (l ≫= output_names sym))%nat).
  { rewrite <-size_dom, Hdom. apply size_list_to_set_le. }
  pose proof (length_bind_output_names sym l) as Hlen.
  split_and!.
  - exact Hdom.
  - intros a Hin. by eapply quantize_loop_has_name.
  - destruct sym; lia.
  - intros ->. lia.
Qed.

(** X2. A run over [l1 ++ l2] is the run over [l1] followed by the run over
    [l2]: it raises what the first of them raises, and otherwise its output
    is the output for [l2] laid over the output for [l1], so on a shared key
    the later list wins. *)
Theorem run_of_append backend sym l1 l2 :
  quantize_by_actions (l1 ++ l2) backend sym
  = match quantize_by_actions l1 backend sym with
    | Raise e => Raise e
    | Ok o1 =>
        match quantize_by_actions l2 backend sym with
        | Raise e => Raise e
        | Ok o2 => Ok (o2 ∪ o1)
        end
    end.
Proof.
  unfold quantize_by_actions. rewrite quantize_loop_app.
  destruct (quantize_loop backend sym l1 ∅) as [o1|e]; simpl; [|done].
  apply quantize_loop_union.
Qed.

(** X3. When the primitive raises on a quantized action, the run raises that
    exception, whatever was written for the actions before it and whatever
    comes after it: no dictionary is returned. *)
Theorem primitive_error_aborts_run backend sym l1 a l2 o1 e :
  quantize_by_actions l1 backend sym = Ok o1 →
  truthy (quantize_axis a) = true →
  quantize_tensor (tensor_value a) (quantize_axis a) sym (quantize_bits a)
  = Raise e →
  quantize_by_actions (l1 ++ a :: l2) backend sym = Raise e.
Proof.
  unfold quantize_by_actions. intros Hl1 Hax Hq.
  rewrite quantize_loop_app, Hl1. simpl.
  unfold quantize_action. rewrite Hax. by destruct sym; rewrite Hq.
Qed.

(** X4. An entry of the output has its pack flag on only if it is the entry
    of a quantized action of that name with [quantize_bits = 4]; tensors
    copied without quantization, scales and zero points are never flagged
    for packing. *)
Theorem packed_entry_is_four_bit backend sym l out (k : string) (v : Tensor) :
  quantize_by_actions l backend sym = Ok out →
  out !! k = Some (v, true) →
  ∃ a, a ∈ l ∧ target_name a = k ∧ truthy (quantize_axis a) = true
       ∧ quantize_bits a = 4.
Proof.
  intros Hrun Hk.
  destruct (quantize_loop_packed _ _ _ _ _ _ _ Hrun Hk) as [Hempty|H];
    [|done].
  by rewrite lookup_empty in Hempty.
Qed.

(** X5. When the names assigned in a run are pairwise distinct, nothing is
    overwritten: each action of the list, run alone, returns, and the
    entries it produces alone are entries of the output of the run. *)
Theorem distinct_names_keep_entries backend sym l a out :
  NoDup (l ≫= output_names sym) →
  a ∈ l →
  quantize_by_actions l backend sym = Ok out →
  ∃ oa, quantize_by_actions [a] backend sym = Ok oa ∧ oa ⊆ out.
Proof.
  intros Hnodup Hin Hrun.
  destruct (list_elem_of_split _ _ Hin) as (l1 & l2 & ->).
  unfold quantize_by_actions in Hrun. rewrite quantize_loop_app in Hrun.
  destruct (quantize_loop backend sym l1 ∅) as [o1|e]; simpl in Hrun;
    [|done].
  rewrite (quantize_action_union backend sym o1 a) in Hrun.
  rewrite quantize_by_actions_singleton.
  destruct (quantize_action backend sym ∅ a) as [oa|e] eqn:Hoa;
    simpl in Hrun; [|done].
  exists oa. split; [done|].
  rewrite bind_app, bind_cons in Hnodup.
  apply NoDup_app in Hnodup as (_ & _ & Hnodup).
  apply NoDup_app in Hnodup as (_ & Hlater & _).
  apply map_subseteq_spec. intros k x Hk.
  assert (Hname : k ∈ output_names sym a).
  { pose proof (quantize_action_dom _ _ _ _ _ Hoa) as Hdom.
    rewrite dom_empty_L, (left_id_L ∅ (∪)) in Hdom.
    apply (elem_of_list_to_set (C:=gset string)).
    rewrite <-Hdom. apply elem_of_dom. by eexists. }
  rewrite (quantize_loop_untouched _ _ _ _ _ _ Hrun (Hlater _ Hname)).
  by apply lookup_union_Some_l.
Qed.

(** X6. When the names assigned in a run are pairwise distinct, the output
    has one entry per assignment: as many entries as the actions have output
    names together. *)
Theorem distinct_names_size backend sym l out :
  NoDup (l ≫= output_names sym) →
  quantize_by_actions l backend sym = Ok out →
  size out = length (l ≫= output_names sym).
Proof.
  intros Hnodup Hrun.
  rewrite <-size_dom, (quantize_by_actions_dom _ _ _ _ Hrun).
  by apply size_list_to_set.
Qed.

(** X7. The executor does not check the backend tag: it only compares it
    with ["xnnpack"].  Two tags other than ["xnnpack"], supported or not,
    give the same result on every list of actions, symmetric or not. *)
Theorem backends_other_than_xnnpack_agree (b1 b2 : string) sym l :
  b1 ≠ "xnnpack" → b2 ≠ "xnnpack" →
  quantize_by_actions l b1 sym = quantize_by_actions l b2 sym.
Proof.
  intros H1 H2. apply quantize_loop_backend. intros a _ _ _.
  apply String.eqb_neq in H1, H2. by rewrite H1, H2.
Qed.

(** X8. When no quantized action of the list has [quantize_bits = 4], the
    result of a run is the same for every backend tag, also in an asymmetric
    run. *)
Theorem backend_matters_only_at_four_bits (b1 b2 : string) sym l :
  (∀ a, a ∈ l → truthy (quantize_axis a) = true → quantize_bits a ≠ 4) →
  quantize_by_actions l b1 sym = quantize_by_actions l b2 sym.
Proof.
  intros Hbits. apply quantize_loop_backend. intros a Hin Hax _.
  pose proof (Hbits a Hin Hax) as Hne. apply Z.eqb_neq in Hne.
  by rewrite Hne, !andb_false_r.
Qed.

End ExecutorRunProperties.

(** ** Runs of the orchestrator *)

Ltac unfold_conversion :=
  unfold convert_checkpoint, combined_weight_bins_to_tflite, mbind, M_bind,
    logging_info, external, raise, pass, mret, M_ret.

Section OrchestratorRuns.
Context {Tensor : Type} `{!QuantizationUtil Tensor} `{!Platform Tensor}.

(** X9. Whatever the externals do, the calls of a conversion are an initial
    part of one fixed sequence: the logging of the input folder; on the full
    path the loader factory, [load_to_actions], the executor, the writer
    factory and [write_variables]; and last the generator of the backend.
    So nothing is called twice or out of order, no generator runs before the
    weights are written, and a combine-only conversion never calls loader,
    executor or writer. *)
Theorem convert_checkpoint_calls_in_order (config : ConversionConfig)
    (w : world) :
  ∃ made, calls (convert_checkpoint config w).1 = calls w ++ made
          ∧ made `prefix_of` expected_calls config.
Proof.
  unfold expected_calls. unfold_conversion.
  destruct (combine_file_only config); cbn.
  - destruct (String.eqb (backend config) "xnnpack"); cbn.
    { destruct (GenerateXnnpackTfLite _ _ _ _ _ _) as [fs' r]; cbn.
      rewrite <-app_assoc. eexists. split; [done|]. by exists []. }
    destruct (String.eqb (backend config) "ml_drift"); cbn.
    { destruct (GenerateMlDriftTfLite _ _ _ _ _ _) as [fs' r]; cbn.
      rewrite <-app_assoc. eexists. split; [done|]. by exists []. }
    eexists. split; [done|]. by exists [].
  - destruct (create_ckpt_loader _ _ _ _ _ _ _ _ _) as [fs1 [loader|e]]; cbn;
      [|rewrite <-?app_assoc; eexists; split; [done|]; by eexists].
    destruct (load_to_actions _ _) as [fs2 [actions|e]]; cbn;
      [|rewrite <-?app_assoc; eexists; split; [done|]; by eexists].
    destruct (quantize_by_actions _ _ _) as [tensors|e]; cbn;
      [|rewrite <-?app_assoc; eexists; split; [done|]; by eexists].
    destruct (create_writer _ _ _ _) as [fs3 [writer|e]]; cbn;
      [|rewrite <-?app_assoc; eexists; split; [done|]; by eexists].
    destruct (write_variables _ _ _) as [fs4 [[]|e]]; cbn;
      [|rewrite <-?app_assoc; eexists; split; [done|]; by eexists].
    destruct (String.eqb (backend config) "xnnpack"); cbn.
    { destruct (GenerateXnnpackTfLite _ _ _ _ _ _) as [fs' r]; cbn.
      rewrite <-?app_assoc. eexists. split; [done|]. by exists []. }
    destruct (String.eqb (backend config) "ml_drift"); cbn.
    { destruct (GenerateMlDriftTfLite _ _ _ _ _ _) as [fs' r]; cbn.
      rewrite <-?app_assoc. eexists. split; [done|]. by exists []. }
    rewrite <-?app_assoc. eexists. split; [done|]. by exists [].
Qed.

(** X10. A conversion that returns has made every call of the sequence, and
    its backend is [xnnpack] or [ml_drift]: there is no way to return early,
    and none for an unknown backend. *)
Theorem convert_checkpoint_returns_after_all_calls
    (config : ConversionConfig) (w : world) :
  (convert_checkpoint config w).2 = Ok () →
  calls (convert_checkpoint config w).1 = calls w ++ expected_calls config
  ∧ (backend config = "xnnpack" ∨ backend config = "ml_drift").
Proof.
  unfold expected_calls. unfold_conversion.
  destruct (combine_file_only config); cbn.
  - destruct (String.eqb_spec (backend config) "xnnpack") as [Hx|Hx]; cbn.
    { destruct (GenerateXnnpackTfLite _ _ _ _ _ _) as [fs' r]; cbn.
      intros _. rewrite <-app_assoc. split; [done|by left]. }
    destruct (String.eqb_spec (backend config) "ml_drift") as [Hm|Hm]; cbn.
    { destruct (GenerateMlDriftTfLite _ _ _ _ _ _) as [fs' r]; cbn.
      intros _. rewrite <-app_assoc. split; [done|by right]. }
    done.
  - destruct (create_ckpt_loader _ _ _ _ _ _ _ _ _) as [fs1 [loader|e]]; cbn;
      [|done].
    destruct (load_to_actions _ _) as [fs2 [actions|e]]; cbn; [|done].
    destruct (quantize_by_actions _ _ _) as [tensors|e]; cbn; [|done].
    destruct (create_writer _ _ _ _) as [fs3 [writer|e]]; cbn; [|done].
    destruct (write_variables _ _ _) as [fs4 [[]|e]]; cbn; [|done].
    destruct (String.eqb_spec (backend config) "xnnpack") as [Hx|Hx]; cbn.
    { destruct (GenerateXnnpackTfLite _ _ _ _ _ _) as [fs' r]; cbn.
      intros _. rewrite <-!app_assoc. split; [done|by left]. }
    destruct (String.eqb_spec (backend config) "ml_drift") as [Hm|Hm]; cbn.
    { destruct (GenerateMlDriftTfLite _ _ _ _ _ _) as [fs' r]; cbn.
      intros _. rewrite <-!app_assoc. split; [done|by right]. }
    done.
Qed.

(** X11. A combine-only conversion for [xnnpack] or [ml_drift] logs the
    input folder and calls the generator of that backend, once, on the
    config's model type, output directory (as the weight path), vocabulary
    file and output file, with the flag on; the outcome of the conversion is
    the outcome of the generator. *)
Theorem combine_only_calls_generator_directly
    (config : ConversionConfig) (w : world) :
  combine_file_only config = true →
  (backend config = "xnnpack" →
   convert_checkpoint config w
   = let '(fs', r) :=
       GenerateXnnpackTfLite (model_type config) (output_dir config)
         (vocab_model_file config) true (output_tflite_file config) (fs w) in
     ({| fs := fs';
         calls := calls w
           ++ [Call_logging_info "input folder: %s" (input_ckpt config);
               Call_GenerateXnnpackTfLite (model_type config)
                 (output_dir config) (vocab_model_file config) true
                 (output_tflite_file config)] |}, r))
  ∧ (backend config = "ml_drift" →
     convert_checkpoint config w
     = let '(fs', r) :=
         GenerateMlDriftTfLite (model_type config) (output_dir config)
           (vocab_model_file config) true (output_tflite_file config)
           (fs w) in
       ({| fs := fs';
           calls := calls w
             ++ [Call_logging_info "input folder: %s" (input_ckpt config);
                 Call_GenerateMlDriftTfLite (model_type config)
                   (output_dir config) (vocab_model_file config) true
                   (output_tflite_file config)] |}, r)).
Proof.
  intros Hcombine. unfold_conversion. rewrite Hcombine.
  split; intros Hb; rewrite Hb; cbn.
  - destruct (GenerateXnnpackTfLite _ _ _ _ _ _) as [fs' r]; cbn.
    by rewrite <-app_assoc.
  - destruct (GenerateMlDriftTfLite _ _ _ _ _ _) as [fs' r]; cbn.
    by rewrite <-app_assoc.
Qed.

(** X12. On the full path the backend tag is checked last.  With a tag that
    is neither [xnnpack] nor [ml_drift], and a loader, executor and writer
    that all succeed, the conversion raises
    [ValueError "Unsupported backend: <tag>"] only after [write_variables]
    has run: the file system is the one the writer left. *)
Theorem unsupported_backend_fails_after_writing
    (config : ConversionConfig) (w : world)
    (fs1 fs2 fs3 fs4 : FS) (loader : Loader) (writer : Writer)
    (actions : list (QuantizationAction Tensor))
    (tensors : gmap string (Tensor * bool)) :
  combine_file_only config = false →
  backend config ≠ "xnnpack" → backend config ≠ "ml_drift" →
  create_ckpt_loader (ckpt_format config) (input_ckpt config)
    (is_symmetric config) (backend config) (attention_quant_bits config)
    (feedforward_quant_bits config) (embedding_quant_bits config)
    (model_type config) (fs w) = (fs1, Ok loader) →
  load_to_actions loader fs1 = (fs2, Ok actions) →
  quantize_by_actions actions (backend config) (is_symmetric config)
  = Ok tensors →
  create_writer "weight_bins" (output_dir config) (backend config) fs2
  = (fs3, Ok writer) →
  write_variables writer tensors fs3 = (fs4, Ok ()) →
  convert_checkpoint config w
  = ({| fs := fs4;
        calls := calls w
          ++ [Call_logging_info "input folder: %s" (input_ckpt config);
              Call_create_ckpt_loader (ckpt_format config)
                (input_ckpt config);
              Call_load_to_actions;
              Call_quantize_by_actions (backend config)
                (is_symmetric config);
              Call_create_writer "weight_bins" (output_dir config)
                (backend config);
              Call_write_variables] |},
     Raise (ValueError ("Unsupported backend: " +:+ backend config))).
Proof.
  intros Hcombine Hx Hm Hloader Hload Hquant Hwriter Hwrite.
  apply String.eqb_neq in Hx, Hm.
  unfold_conversion. rewrite Hcombine. cbn.
  rewrite Hloader. cbn. rewrite Hload. cbn. rewrite Hquant. cbn.
  rewrite Hwriter. cbn. rewrite Hwrite. cbn. rewrite Hx, Hm. cbn.
  by rewrite <-!app_assoc.
Qed.

(** X13. When the executor raises on the loaded actions, the conversion
    raises the same exception and stops there: the writer factory,
    [write_variables] and the generators are not called, for any backend
    tag. *)
Theorem executor_error_skips_writer
    (config : ConversionConfig) (w : world)
    (fs1 fs2 : FS) (loader : Loader)
    (actions : list (QuantizationAction Tensor)) (e : exn) :
  combine_file_only config = false →
  create_ckpt_loader (ckpt_format config) (input_ckpt config)
    (is_symmetric config) (backend config) (attention_quant_bits config)
    (feedforward_quant_bits config) (embedding_quant_bits config)
    (model_type config) (fs w) = (fs1, Ok loader) →
  load_to_actions loader fs1 = (fs2, Ok actions) →
  quantize_by_actions actions (backend config) (is_symmetric config)
  = Raise e →
  convert_checkpoint config w
  = ({| fs := fs2;
        calls := calls w
          ++ [Call_logging_info "input folder: %s" (input_ckpt config);
              Call_create_ckpt_loader (ckpt_format config)
                (input_ckpt config);
              Call_load_to_actions;
              Call_quantize_by_actions (backend config)
                (is_symmetric config)] |},
     Raise e).
Proof.
  intros Hcombine Hloader Hload Hquant.
  unfold_conversion. rewrite Hcombine. cbn.
  rewrite Hloader. cbn. rewrite Hload. cbn. rewrite Hquant. cbn.
  by rewrite <-!app_assoc.
Qed.

End OrchestratorRuns.

(** ** Construction of a config *)

Ltac unfold_init :=
  unfold ConversionConfig_new, ConversionConfig__init__, mbind, M_bind,
    setattr, in_world, probe, logging_info, makedirs_exist_ok, external,
    raise, pass, mret, M_ret.

Section Construction.
Context {Tensor : Type} `{!QuantizationUtil Tensor} `{!Platform Tensor}.
Variables (input_ckpt ckpt_format model_type backend output_dir : string).
Variables (is_symmetric : bool).
Variables (attention_quant_bits feedforward_quant_bits : Z).
Variables (embedding_quant_bits : Z).
Variables (combine_file_only : bool) (vocab_model_file : string).

(** The config with the default output file. *)
Let with_output (output_tflite_file : string) : ConversionConfig :=
  Build_ConversionConfig input_ckpt ckpt_format model_type backend output_dir
    is_symmetric attention_quant_bits feedforward_quant_bits
    embedding_quant_bits combine_file_only vocab_model_file
    output_tflite_file.

Let new (output_tflite_file : option string) (w : world) :=
  ConversionConfig_new input_ckpt ckpt_format model_type backend output_dir
    is_symmetric attention_quant_bits feedforward_quant_bits
    embedding_quant_bits combine_file_only vocab_model_file
    output_tflite_file w.

(** X14. Constructing a config on an existing output directory, with no
    output file given ([None] or the empty string), returns without any
    call and without touching the file system; the object holds all twelve
    attributes, with the arguments as they were passed, and its output file
    is [os.path.join(output_dir, 'model.tflite')]. *)
Theorem construction_on_existing_directory
    (output_tflite_file : option string) (w : world) :
  os_path_isfile output_dir (fs w) = false →
  os_path_isdir output_dir (fs w) = true →
  truthy_str output_tflite_file = false →
  ∃ self,
    new output_tflite_file w = (self, w, Ok ())
    ∧ config_of_self self
      = Some (with_output (os_path_join output_dir "model.tflite")).
Proof.
  intros Hfile Hdir Hout. unfold new, with_output. unfold_init. cbn.
  rewrite Hfile. cbn. rewrite Hdir. cbn. rewrite Hout.
  destruct w. eexists. split; [reflexivity|]. by vm_compute.
Qed.

(** X15. Constructing a config whose output directory does not exist logs
    the creation and calls [os.makedirs(output_dir, exist_ok=True)]; when
    that succeeds and no output file is given, construction returns with
    these two calls made, the file system as [makedirs] left it, and a
    complete object with the default output file. *)
Theorem construction_creates_missing_directory
    (output_tflite_file : option string) (w : world) (fs' : FS) :
  os_path_isfile output_dir (fs w) = false →
  os_path_isdir output_dir (fs w) = false →
  os_makedirs output_dir (fs w) = (fs', Ok ()) →
  truthy_str output_tflite_file = false →
  ∃ self,
    new output_tflite_file w
    = (self,
       {| fs := fs';
          calls := calls w
            ++ [Call_logging_info "Creating output directory: %s" output_dir;
                Call_os_makedirs output_dir] |},
       Ok ())
    ∧ config_of_self self
      = Some (with_output (os_path_join output_dir "model.tflite")).
Proof.
  intros Hfile Hdir Hmk Hout. unfold new, with_output. unfold_init. cbn.
  rewrite Hfile. cbn. rewrite Hdir. cbn. rewrite Hmk. cbn. rewrite Hout.
  rewrite <-app_assoc. eexists. split; [reflexivity|]. by vm_compute.
Qed.

(** X16. When the output directory does not exist and [os.makedirs] raises,
    construction raises that exception: the creation was logged and
    attempted, and the object is left with its first four attributes
    only. *)
Theorem construction_fails_when_makedirs_fails
    (output_tflite_file : option string) (w : world) (fs' : FS) (e : exn) :
  os_path_isfile output_dir (fs w) = false →
  os_path_isdir output_dir (fs w) = false →
  os_makedirs output_dir (fs w) = (fs', Raise e) →
  new output_tflite_file w
  = (<["backend" := AStr backend]>
       (<["model_type" := AStr model_type]>
          (<["ckpt_format" := AStr ckpt_format]>
             (<["input_ckpt" := AStr input_ckpt]> ∅))),
     {| fs := fs';
        calls := calls w
          ++ [Call_logging_info "Creating output directory: %s" output_dir;
              Call_os_makedirs output_dir] |},
     Raise e).
Proof.
  intros Hfile Hdir Hmk. unfold new. unfold_init. cbn.
  rewrite Hfile. cbn. rewrite Hdir. cbn. rewrite Hmk. cbn.
  by rewrite <-app_assoc.
Qed.

(** X17. With an output file given (a non-empty path) and an existing
    output directory, the path is stored as it is, not joined to the output
    directory.  If its parent directory exists, nothing is called; if it
    does not, its creation is logged and [os.makedirs] is called on
    [os.path.dirname] of the path, and when that raises, construction
    raises with [output_tflite_file] unset. *)
Theorem construction_with_output_file (path : string) (w : world) :
  os_path_isfile output_dir (fs w) = false →
  os_path_isdir output_dir (fs w) = true →
  path ≠ "" →
  (os_path_isdir (os_path_dirname path) (fs w) = true →
   ∃ self, new (Some path) w = (self, w, Ok ())
           ∧ config_of_self self = Some (with_output path))
  ∧ (os_path_isdir (os_path_dirname path) (fs w) = false →
     ∀ fs', os_makedirs (os_path_dirname path) (fs w) = (fs', Ok ()) →
     ∃ self,
       new (Some path) w
       = (self,
          {| fs := fs';
             calls := calls w
               ++ [Call_logging_info "Creating tflite parent directory: %s"
                     (os_path_dirname path);
                   Call_os_makedirs (os_path_dirname path)] |},
          Ok ())
       ∧ config_of_self self = Some (with_output path))
  ∧ (os_path_isdir (os_path_dirname path) (fs w) = false →
     ∀ fs' e, os_makedirs (os_path_dirname path) (fs w) = (fs', Raise e) →
     ∃ self,
       new (Some path) w
       = (self,
          {| fs := fs';
             calls := calls w
               ++ [Call_logging_info "Creating tflite parent directory: %s"
                     (os_path_dirname path);
                   Call_os_makedirs (os_path_dirname path)] |},
          Raise e)
       ∧ self !! "output_tflite_file" = None
       ∧ config_of_self self = None).
Proof.
  intros Hfile Hdir Hpath. apply String.eqb_neq in Hpath.
  unfold new, with_output. unfold_init. cbn.
  rewrite Hfile. cbn. rewrite Hdir. cbn. rewrite Hpath. cbn.
  split_and!.
  - intros Hparent. rewrite Hparent. cbn. destruct w.
    eexists. split; [reflexivity|]. by vm_compute.
  - intros Hparent fs' Hmk. rewrite Hparent. cbn. rewrite Hmk. cbn.
    rewrite <-app_assoc. eexists. split; [reflexivity|]. by vm_compute.
  - intros Hparent fs' e Hmk. rewrite Hparent. cbn. rewrite Hmk. cbn.
    rewrite <-app_assoc. eexists. split; [reflexivity|].
    split; by vm_compute.
Qed.

(** X18. Whenever construction returns, the object is complete: all twelve
    attributes are set, each to the argument of its name, and the output
    file is the given path if one was given and not empty, and
    [os.path.join(output_dir, 'model.tflite')] otherwise.  And the output
    directory was not a regular file. *)
Theorem constructed_config_is_complete
    (output_tflite_file : option string) (w w' : world)
    (self : gmap string attr) :
  new output_tflite_file w = (self, w', Ok ()) →
  config_of_self self
  = Some (with_output
            (if truthy_str output_tflite_file
             then default "" output_tflite_file
             else os_path_join output_dir "model.tflite"))
  ∧ os_path_isfile output_dir (fs w) = false.
Proof.
  unfold new, with_output. unfold_init. cbn.
  destruct (os_path_isfile output_dir (fs w)); cbn; [done|].
  destruct (os_path_isdir output_dir (fs w)); cbn.
  - destruct (truthy_str output_tflite_file); cbn.
    + destruct (os_path_isdir _ (fs w)); cbn.
      * intros [= <- <-]. split; [by vm_compute|done].
      * destruct (os_makedirs _ (fs w)) as [fs1 [[]|e]]; cbn; [|done].
        intros [= <- <-]. split; [by vm_compute|done].
    + intros [= <- <-]. split; [by vm_compute|done].
  - destruct (os_makedirs output_dir (fs w)) as [fs0 [[]|e]]; cbn; [|done].
    destruct (truthy_str output_tflite_file); cbn.
    + destruct (os_path_isdir _ fs0); cbn.
      * intros [= <- <-]. split; [by vm_compute|done].
      * destruct (os_makedirs _ fs0) as [fs1 [[]|e]]; cbn; [|done].
        intros [= <- <-]. split; [by vm_compute|done].
    + intros [= <- <-]. split; [by vm_compute|done].
Qed.


(** X20. Construction checks nothing but the two paths: the checkpoint path
    and format, the model type, the backend tag, the symmetry flag, the bit
    widths, the combine flag and the vocabulary file are stored as they
    come.  With the same output directory and output file, any two choices
    of them lead to the same calls, the same file system and the same
    outcome (return or exception). *)
Theorem construction_validates_only_paths
    (input_ckpt' ckpt_format' model_type' backend' : string)
    (is_symmetric' : bool)
    (attention_quant_bits' feedforward_quant_bits' : Z)
    (embedding_quant_bits' : Z)
    (combine_file_only' : bool) (vocab_model_file' : string)
    (output_tflite_file : option string) (w : world) :
  (ConversionConfig_new input_ckpt' ckpt_format' model_type' backend'
     output_dir is_symmetric' attention_quant_bits' feedforward_quant_bits'
     embedding_quant_bits' combine_file_only' vocab_model_file'
     output_tflite_file w).1.2
  = (new output_tflite_file w).1.2
  ∧ (ConversionConfig_new input_ckpt' ckpt_format' model_type' backend'
       output_dir is_symmetric' attention_quant_bits' feedforward_quant_bits'
       embedding_quant_bits' combine_file_only' vocab_model_file'
       output_tflite_file w).2
    = (new output_tflite_file w).2.
Proof.
  unfold new. unfold_init. cbn.
  destruct (os_path_isfile output_dir (fs w)); cbn; [done|].
  destruct (os_path_isdir output_dir (fs w)); cbn.
  - destruct (truthy_str output_tflite_file); cbn; [|done].
    destruct (os_path_isdir _ (fs w)); cbn; [done|].
    by destruct (os_makedirs _ (fs w)) as [fs1 [[]|e]].
  - destruct (os_makedirs output_dir (fs w)) as [fs0 [[]|e]]; cbn; [|done].
    destruct (truthy_str output_tflite_file); cbn; [|done].
    destruct (os_path_isdir _ fs0); cbn; [done|].
    by destruct (os_makedirs _ fs0) as [fs1 [[]|e]].
Qed.

End Construction.

(** ** The further theorems at concrete inputs *)

Lemma output_keys_and_size_witness :
  ∃ out,
    quantize_by_actions [Reference.action_w8; Reference.action_norm]
      "xnnpack" false = Ok out
    ∧ dom out
      = list_to_set ["w"; "w_quantized_scale"; "w_quantized_zp"; "norm"]
    ∧ (size out ≤ 6)%nat.
Proof.
  destruct (quantize_by_actions [Reference.action_w8; Reference.action_norm]
              "xnnpack" false) as [out|e] eqn:Hrun.
  - exists out. split; [reflexivity|].
    destruct (output_keys_and_size "xnnpack" false _ out Hrun)
      as (Hdom & _ & Hsize & _).
    split; [exact Hdom|exact Hsize].
  - vm_compute in Hrun. discriminate Hrun.
Defined.

Lemma primitive_error_aborts_run_witness :
  quantize_by_actions [Reference.action_norm] "xnnpack" true
  = Ok {[ "norm" := (Reference.rows2, false) ]}
  ∧ quantize_by_actions
      [Reference.action_norm; Reference.action_nine_bits;
       Reference.action_w8] "xnnpack" true
    = Raise (ValueError "number_bits must be between 2 and 8").
Proof.
  assert (Hrun : quantize_by_actions [Reference.action_norm] "xnnpack" true
                 = Ok {[ "norm" := (Reference.rows2, false) ]})
    by (vm_compute; reflexivity).
  split; [exact Hrun|].
  exact (primitive_error_aborts_run "xnnpack" true [Reference.action_norm]
           Reference.action_nine_bits [Reference.action_w8] _ _
           Hrun eq_refl eq_refl).
Defined.

Lemma packed_entry_is_four_bit_witness :
  ∃ a, a ∈ [Reference.action_w4] ∧ target_name a = "w"
       ∧ truthy (quantize_axis a) = true ∧ quantize_bits a = 4.
Proof.
  destruct (quantize_by_actions [Reference.action_w4] "xnnpack" true)
    as [out|e] eqn:Hrun; [|vm_compute in Hrun; discriminate Hrun].
  destruct (out !! "w") as [[v [|]]|] eqn:Hk.
  - exact (packed_entry_is_four_bit "xnnpack" true _ out "w" v Hrun Hk).
  - vm_compute in Hrun. injection Hrun as <-.
    vm_compute in Hk. discriminate Hk.
  - vm_compute in Hrun. injection Hrun as <-.
    vm_compute in Hk. discriminate Hk.
Defined.

Lemma distinct_names_keep_entries_witness :
  NoDup ([Reference.action_norm; Reference.action_w8] ≫= output_names true)
  ∧ ∃ out oa,
      quantize_by_actions [Reference.action_norm; Reference.action_w8]
        "ml_drift" true = Ok out
      ∧ quantize_by_actions [Reference.action_w8] "ml_drift" true = Ok oa
      ∧ oa ⊆ out.
Proof.
  assert (Hnodup : NoDup ([Reference.action_norm; Reference.action_w8]
                            ≫= output_names true)).
  { apply (bool_decide_unpack _). vm_compute. exact I. }
  split; [exact Hnodup|].
  destruct (quantize_by_actions [Reference.action_norm; Reference.action_w8]
              "ml_drift" true) as [out|e] eqn:Hrun;
    [|vm_compute in Hrun; discriminate Hrun].
  destruct (distinct_names_keep_entries "ml_drift" true _
              Reference.action_w8 out Hnodup) as (oa & Hoa & Hsub).
  - apply list_elem_of_further, list_elem_of_here.
  - exact Hrun.
  - exists out, oa. split; [reflexivity|]. split; [exact Hoa|exact Hsub].
Defined.

Lemma distinct_names_size_witness :
  ∃ out,
    quantize_by_actions [Reference.action_norm; Reference.action_w8]
      "ml_drift" true = Ok out
    ∧ size out = 3%nat.
Proof.
  assert (Hnodup : NoDup ([Reference.action_norm; Reference.action_w8]
                            ≫= output_names true)).
  { apply (bool_decide_unpack _). vm_compute. exact I. }
  destruct (quantize_by_actions [Reference.action_norm; Reference.action_w8]
              "ml_drift" true) as [out|e] eqn:Hrun;
    [|vm_compute in Hrun; discriminate Hrun].
  exists out. split; [reflexivity|].
  exact (distinct_names_size "ml_drift" true _ out Hnodup Hrun).
Defined.

Lemma backends_other_than_xnnpack_agree_witness :
  quantize_by_actions [Reference.action_w4] "ml_drift" false
  = quantize_by_actions [Reference.action_w4] "unsupported" false.
Proof.
  apply backends_other_than_xnnpack_agree; discriminate.
Defined.

Lemma backend_matters_only_at_four_bits_witness :
  quantize_by_actions [Reference.action_w8; Reference.action_norm]
    "xnnpack" false
  = quantize_by_actions [Reference.action_w8; Reference.action_norm]
      "ml_drift" false.
Proof.
  apply backend_matters_only_at_four_bits.
  intros a Ha. apply elem_of_cons in Ha as [->|Ha].
  - intros _. discriminate.
  - apply list_elem_of_singleton in Ha as ->. intros Hax. discriminate Hax.
Defined.

Lemma convert_checkpoint_returns_after_all_calls_witness :
  (convert_checkpoint (Reference.config_full "xnnpack")
     Reference.world_ready).2 = Ok ()
  ∧ calls (convert_checkpoint (Reference.config_full "xnnpack")
             Reference.world_ready).1
    = [Call_logging_info "input folder: %s" "ckpt";
       Call_create_ckpt_loader "safetensors" "ckpt";
       Call_load_to_actions;
       Call_quantize_by_actions "xnnpack" false;
       Call_create_writer "weight_bins" "out" "xnnpack";
       Call_write_variables;
       Call_GenerateXnnpackTfLite "GEMMA_2B" "out" "" true
         "out/model.tflite"].
Proof.
  assert (Hok : (convert_checkpoint (Reference.config_full "xnnpack")
                   Reference.world_ready).2 = Ok ())
    by (vm_compute; reflexivity).
  split; [exact Hok|].
  exact (proj1 (convert_checkpoint_returns_after_all_calls
                  (Reference.config_full "xnnpack") Reference.world_ready
                  Hok)).
Defined.

Lemma combine_only_calls_generator_directly_witness :
  combine_file_only (Reference.config_combine "ml_drift") = true
  ∧ convert_checkpoint (Reference.config_combine "ml_drift")
      Reference.world_ready
    = ({| fs := <["out/model.tflite" := Reference.File]> Reference.fs_ready;
          calls := [Call_logging_info "input folder: %s" "ckpt";
                    Call_GenerateMlDriftTfLite "GEMMA_2B" "out" "" true
                      "out/model.tflite"] |},
       Ok ()).
Proof.
  split; [reflexivity|].
  exact (proj2 (combine_only_calls_generator_directly
                  (Reference.config_combine "ml_drift")
                  Reference.world_ready eq_refl) eq_refl).
Defined.

Lemma unsupported_backend_fails_after_writing_witness :
  convert_checkpoint (Reference.config_full "unsupported")
    Reference.world_ready
  = ({| fs := <["out/weights.bin" := Reference.File]> Reference.fs_ready;
        calls := [Call_logging_info "input folder: %s" "ckpt";
                  Call_create_ckpt_loader "safetensors" "ckpt";
                  Call_load_to_actions;
                  Call_quantize_by_actions "unsupported" false;
                  Call_create_writer "weight_bins" "out" "unsupported";
                  Call_write_variables] |},
     Raise (ValueError "Unsupported backend: unsupported")).
Proof.
  assert (Hx : backend (Reference.config_full "unsupported") ≠ "xnnpack")
    by discriminate.
  assert (Hm : backend (Reference.config_full "unsupported") ≠ "ml_drift")
    by discriminate.
  exact (unsupported_backend_fails_after_writing
           (Reference.config_full "unsupported") Reference.world_ready
           Reference.fs_ready Reference.fs_ready Reference.fs_ready
           (<["out/weights.bin" := Reference.File]> Reference.fs_ready)
           "ckpt" "out" [] ∅
           eq_refl Hx Hm eq_refl eq_refl eq_refl eq_refl eq_refl).
Defined.

Lemma executor_error_skips_writer_witness :
  @convert_checkpoint Reference.tensor Reference.quantization_util
    (Reference.platform_holding [Reference.action_nine_bits])
    (Reference.config_full "xnnpack")
    (Reference.world_holding [Reference.action_nine_bits])
  = (@World Reference.tensor
       (Reference.platform_holding [Reference.action_nine_bits])
       Reference.fs_ready
       [Call_logging_info "input folder: %s" "ckpt";
        Call_create_ckpt_loader "safetensors" "ckpt";
        Call_load_to_actions;
        Call_quantize_by_actions "xnnpack" false],
     Raise (ValueError "number_bits must be between 2 and 8")).
Proof.
  exact (@executor_error_skips_writer Reference.tensor
           Reference.quantization_util
           (Reference.platform_holding [Reference.action_nine_bits])
           (Reference.config_full "xnnpack")
           (Reference.world_holding [Reference.action_nine_bits])
           Reference.fs_ready Reference.fs_ready "ckpt"
           [Reference.action_nine_bits]
           (ValueError "number_bits must be between 2 and 8")
           eq_refl eq_refl eq_refl eq_refl).
Defined.

Lemma construction_on_existing_directory_witness :
  ∃ self,
    ConversionConfig_new "ckpt" "safetensors" "GEMMA_2B" "ml_drift" "out"
      true 8 4 8 false "" (Some "") Reference.world_out_is_dir
    = (self, Reference.world_out_is_dir, Ok ())
    ∧ config_of_self self
      = Some (Build_ConversionConfig "ckpt" "safetensors" "GEMMA_2B"
                "ml_drift" "out" true 8 4 8 false "" "out/model.tflite").
Proof.
  exact (construction_on_existing_directory "ckpt" "safetensors" "GEMMA_2B"
           "ml_drift" "out" true 8 4 8 false "" (Some "")
           Reference.world_out_is_dir eq_refl eq_refl eq_refl).
Defined.

Lemma construction_creates_missing_directory_witness :
  ∃ self,
    ConversionConfig_new "ckpt" "safetensors" "GEMMA_2B" "xnnpack" "out"
      true 8 8 8 false "" None Reference.world_empty
    = (self,
       {| fs := {[ "out" := Reference.Dir ]};
          calls := [Call_logging_info "Creating output directory: %s" "out";
                    Call_os_makedirs "out"] |},
       Ok ())
    ∧ config_of_self self
      = Some (Build_ConversionConfig "ckpt" "safetensors" "GEMMA_2B"
                "xnnpack" "out" true 8 8 8 false "" "out/model.tflite").
Proof.
  exact (construction_creates_missing_directory "ckpt" "safetensors"
           "GEMMA_2B" "xnnpack" "out" true 8 8 8 false "" None
           Reference.world_empty {[ "out" := Reference.Dir ]}
           eq_refl eq_refl eq_refl eq_refl).
Defined.

Lemma construction_fails_when_makedirs_fails_witness :
  ConversionConfig_new "ckpt" "safetensors" "GEMMA_2B" "xnnpack" ""
    true 8 8 8 false "" None Reference.world_empty
  = (<["backend" := AStr "xnnpack"]>
       (<["model_type" := AStr "GEMMA_2B"]>
          (<["ckpt_format" := AStr "safetensors"]>
             (<["input_ckpt" := AStr "ckpt"]> ∅))),
     {| fs := ∅;
        calls := [Call_logging_info "Creating output directory: %s" "";
                  Call_os_makedirs ""] |},
     Raise (Exn "FileNotFoundError" "No such file or directory: ''")).
Proof.
  exact (construction_fails_when_makedirs_fails "ckpt" "safetensors"
           "GEMMA_2B" "xnnpack" "" true 8 8 8 false "" None
           Reference.world_empty ∅
           (Exn "FileNotFoundError" "No such file or directory: ''")
           eq_refl eq_refl eq_refl).
Defined.

Lemma construction_with_output_file_witness :
  ∃ self,
    ConversionConfig_new "ckpt" "safetensors" "GEMMA_2B" "xnnpack" "out"
      true 8 8 8 false "" (Some "models/m.tflite")
      Reference.world_out_is_dir
    = (self,
       {| fs := <["models" := Reference.Dir]> Reference.fs_out_is_dir;
          calls := [Call_logging_info "Creating tflite parent directory: %s"
                      "models";
                    Call_os_makedirs "models"] |},
       Ok ())
    ∧ config_of_self self
      = Some (Build_ConversionConfig "ckpt" "safetensors" "GEMMA_2B"
                "xnnpack" "out" true 8 8 8 false "" "models/m.tflite").
Proof.
  assert (Hpath : "models/m.tflite" ≠ "") by discriminate.
  exact (proj1 (proj2
    (construction_with_output_file "ckpt" "safetensors" "GEMMA_2B"
       "xnnpack" "out" true 8 8 8 false "" "models/m.tflite"
       Reference.world_out_is_dir eq_refl eq_refl Hpath))
    eq_refl (<["models" := Reference.Dir]> Reference.fs_out_is_dir)
    eq_refl).
Defined.

Lemma constructed_config_is_complete_witness :
  ∃ self w',
    ConversionConfig_new "ckpt" "pytorch" "FALCON_RW_1B" "ml_drift" "out"
      false 4 4 8 true "vocab.model" (Some "out/m.tflite")
      Reference.world_out_is_dir
    = (self, w', Ok ())
    ∧ config_of_self self
      = Some (Build_ConversionConfig "ckpt" "pytorch" "FALCON_RW_1B"
                "ml_drift" "out" false 4 4 8 true "vocab.model" "out/m.tflite").
Proof.
  destruct (ConversionConfig_new "ckpt" "pytorch" "FALCON_RW_1B" "ml_drift"
              "out" false 4 4 8 true "vocab.model" (Some "out/m.tflite")
              Reference.world_out_is_dir) as [[self w'] [[]|e]] eqn:Hnew.
  - exists self, w'. split; [reflexivity|].
    exact (proj1 (constructed_config_is_complete "ckpt" "pytorch"
                    "FALCON_RW_1B" "ml_drift" "out" false 4 4 8 true
                    "vocab.model" (Some "out/m.tflite")
                    Reference.world_out_is_dir w' self Hnew)).
  - vm_compute in Hnew. discriminate Hnew.
Defined.

(** ** Construction, then conversion *)

Section ConstructThenConvert.
Context {Tensor : Type} `{!QuantizationUtil Tensor} `{!Platform Tensor}.

(** X21. The backend tag is first looked at by the dispatch at the end of a
    conversion.  On an existing output directory, a combine-only config with
    a tag that is neither [xnnpack] nor [ml_drift] is constructed without
    complaint, and converting with the constructed config is what raises
    [ValueError "Unsupported backend: <tag>"], after the logging of the
    input folder and with the file system untouched. *)
Theorem unsupported_backend_passes_construction
    (input_ckpt ckpt_format model_type backend output_dir : string)
    (is_symmetric : bool)
    (attention_quant_bits feedforward_quant_bits embedding_quant_bits : Z)
    (vocab_model_file : string) (w : world) :
  os_path_isfile output_dir (fs w) = false →
  os_path_isdir output_dir (fs w) = true →
  backend ≠ "xnnpack" → backend ≠ "ml_drift" →
  ∃ self config,
    ConversionConfig_new input_ckpt ckpt_format model_type backend
      output_dir is_symmetric attention_quant_bits feedforward_quant_bits
      embedding_quant_bits true vocab_model_file None w
    = (self, w, Ok ())
    ∧ config_of_self self = Some config
    ∧ convert_checkpoint config w
      = ({| fs := fs w;
            calls := calls w
              ++ [Call_logging_info "input folder: %s" input_ckpt] |},
         Raise (ValueError ("Unsupported backend: " +:+ backend))).
Proof.
  intros Hfile Hdir Hx Hm.
  exists
    (<["output_tflite_file" := AStr (os_path_join output_dir "model.tflite")]>
     (<["vocab_model_file" := AStr vocab_model_file]>
      (<["combine_file_only" := ABool true]>
       (<["embedding_quant_bits" := AInt embedding_quant_bits]>
        (<["feedforward_quant_bits" := AInt feedforward_quant_bits]>
         (<["attention_quant_bits" := AInt attention_quant_bits]>
          (<["is_symmetric" := ABool is_symmetric]>
           (<["output_dir" := AStr output_dir]>
            (<["backend" := AStr backend]>
             (<["model_type" := AStr model_type]>
              (<["ckpt_format" := AStr ckpt_format]>
               (<["input_ckpt" := AStr input_ckpt]> ∅)))))))))))),
    (Build_ConversionConfig input_ckpt ckpt_format model_type backend
       output_dir is_symmetric attention_quant_bits feedforward_quant_bits
       embedding_quant_bits true vocab_model_file
       (os_path_join output_dir "model.tflite")).
  split_and!.
  - unfold_init. cbn. rewrite Hfile. cbn. rewrite Hdir. cbn.
    by destruct w.
  - by vm_compute.
  - unfold convert_checkpoint.
    unfold mbind, M_bind, logging_info, external, pass, mret, M_ret.
    cbn -[combined_weight_bins_to_tflite].
    by rewrite combined_weight_bins_to_tflite_unsupported.
Qed.

End ConstructThenConvert.

Lemma unsupported_backend_passes_construction_witness :
  ∃ self config,
    ConversionConfig_new "ckpt" "safetensors" "GEMMA_2B" "tpu" "out"
      true 8 8 8 true "" None Reference.world_out_is_dir
    = (self, Reference.world_out_is_dir, Ok ())
    ∧ config_of_self self = Some config
    ∧ convert_checkpoint config Reference.world_out_is_dir
      = ({| fs := Reference.fs_out_is_dir;
            calls := [Call_logging_info "input folder: %s" "ckpt"] |},
         Raise (ValueError "Unsupported backend: tpu")).
Proof.
  assert (Hx : "tpu" ≠ "xnnpack") by discriminate.
  assert (Hm : "tpu" ≠ "ml_drift") by discriminate.
  exact (unsupported_backend_passes_construction "ckpt" "safetensors"
           "GEMMA_2B" "tpu" "out" true 8 8 8 "" Reference.world_out_is_dir
           eq_refl eq_refl Hx Hm).
Defined.
